(** * Person service: models, handlers and their HTTP contract

    A shallow embedding of [models/person.go], [handlers/person.go] and the
    routes registered in [main.go].  The relational table behind [*gorm.DB]
    is an explicit state threaded through every handler; what the handlers
    cannot control (storage faults, the clock, [uuid.New]) is an explicit
    per-request environment. *)

From Stdlib Require Import ZArith NArith List String Ascii Bool Lia Sorted.
Import ListNotations.

Local Open Scope string_scope.
Local Open Scope Z_scope.

(** ** Library types used by the models *)

(** [uuid.UUID] is a [[16]byte]; it is kept as the 128-bit number it spells. *)
Definition UUID : Type := N.

(** [uuid.Nil], the all-zero identifier. *)
Definition Nil : UUID := 0%N.

(** [time.Time]: the three fields of the Go struct.  The zero value has all
    three zero; a UTC instant carries no location pointer. *)
Record Time : Type := mkTime {
  wall : Z;
  ext : Z;
  loc : option string
}.

Definition zeroTime : Time := mkTime 0 0 None.

(** [reflect.Value.IsZero], as the validator and the ORM test a field. *)
Definition Time_isZero (t : Time) : bool :=
  (wall t =? 0) && (ext t =? 0) &&
  match loc t with None => true | Some _ => false end.

Definition UUID_isZero (u : UUID) : bool := N.eqb u Nil.

Definition string_isZero (s : string) : bool :=
  match s with EmptyString => true | String _ _ => false end.

(** ** models/person.go *)

Record Person : Type := mkPerson {
  ID : Z;
  ExternalID : UUID;
  Name : string;
  Email : string;
  DateOfBirth : Time;
  CreatedAt : Time;
  UpdatedAt : Time
}.

Record SavePersonRequest : Type := mkSavePersonRequest {
  req_ExternalID : UUID;
  req_Name : string;
  req_Email : string;
  req_DateOfBirth : Time
}.

Record PersonResponse : Type := mkPersonResponse {
  resp_ExternalID : UUID;
  resp_Name : string;
  resp_Email : string;
  resp_DateOfBirth : Time
}.

Record ErrorResponse : Type := mkErrorResponse {
  err_Error : string
}.

(** The hook receives the value [uuid.New] would return. *)
Definition BeforeCreate (fresh : UUID) (p : Person) : Person :=
  if N.eqb (ExternalID p) Nil
  then mkPerson (ID p) fresh (Name p) (Email p) (DateOfBirth p)
                (CreatedAt p) (UpdatedAt p)
  else p.

Definition ToResponse (p : Person) : PersonResponse :=
  {| resp_ExternalID := ExternalID p;
     resp_Name := Name p;
     resp_Email := Email p;
     resp_DateOfBirth := DateOfBirth p |}.

(** Fields the literal leaves out take their zero value. *)
Definition FromSaveRequest (req : SavePersonRequest) : Person :=
  {| ID := 0;
     ExternalID := req_ExternalID req;
     Name := req_Name req;
     Email := req_Email req;
     DateOfBirth := req_DateOfBirth req;
     CreatedAt := zeroTime;
     UpdatedAt := zeroTime |}.

(** ** strconv.ParseUint *)

Module strconv.

Inductive NumError : Type :=
| ErrSyntax
| ErrRange
| ErrBase
| ErrBitSize.

Definition maxUint64 : Z := 2 ^ 64 - 1.
Definition IntSize : Z := 64.

(** Arithmetic on [uint64] wraps around. *)
Definition wrap64 (z : Z) : Z := z mod 2 ^ 64.

Definition byte_of (c : ascii) : Z := Z.of_N (N_of_ascii c).

(** [lower(c) = c | ('x' - 'X')] *)
Definition lower (c : Z) : Z := Z.lor c 32.

(** The [switch] on one byte of the loop, for an explicit base (no
    underscores are skipped then). *)
Definition digit (c : Z) : option Z :=
  if (48 <=? c) && (c <=? 57) then Some (c - 48)
  else if (97 <=? lower c) && (lower c <=? 122) then Some (lower c - 97 + 10)
  else None.

Fixpoint loop (base cutoff maxVal : Z) (s : string) (n : Z)
  : Z * option NumError :=
  match s with
  | EmptyString => (n, None)
  | String c rest =>
      match digit (byte_of c) with
      | None => (0, Some ErrSyntax)
      | Some d =>
          if d >=? base then (0, Some ErrSyntax)
          else if n >=? cutoff then (maxVal, Some ErrRange)
          else
            let n' := wrap64 (n * base) in
            let n1 := wrap64 (n' + d) in
            if (n1 <? n') || (n1 >? maxVal) then (maxVal, Some ErrRange)
            else loop base cutoff maxVal rest n1
      end
  end.

(** [ParseUint] for an explicit base, [2 <= base <= 36], which is how the
    handlers call it.  The prefix-detecting [base == 0] is not part of this
    embedding and is answered like the other bases outside that range. *)
Definition ParseUint (s : string) (base bitSize : Z) : Z * option NumError :=
  match s with
  | EmptyString => (0, Some ErrSyntax)
  | String _ _ =>
      if negb ((2 <=? base) && (base <=? 36)) then (0, Some ErrBase)
      else
        let bitSize := if bitSize =? 0 then IntSize else bitSize in
        if (bitSize <? 0) || (bitSize >? 64) then (0, Some ErrBitSize)
        else
          let cutoff := maxUint64 / base + 1 in
          let maxVal := wrap64 (wrap64 (Z.shiftl 1 bitSize) - 1) in
          loop base cutoff maxVal s 0
  end.

End strconv.

(** ** HTTP responses *)

Definition StatusOK : Z := 200.
Definition StatusCreated : Z := 201.
Definition StatusBadRequest : Z := 400.
Definition StatusNotFound : Z := 404.
Definition StatusConflict : Z := 409.
Definition StatusInternalServerError : Z := 500.

(** What [c.JSON] is given to serialise: one of the two model structs or a
    [gin.H] map. *)
Inductive Payload : Type :=
| ErrorJSON (e : ErrorResponse)
| PersonJSON (r : PersonResponse)
| MapJSON (h : list (string * string)).

Record Response : Type := mkResponse {
  status : Z;
  payload : Payload
}.

Definition JSON (code : Z) (obj : Payload) : Response := mkResponse code obj.

Definition error_message (r : Response) : option string :=
  match payload r with
  | ErrorJSON e => Some (err_Error e)
  | _ => None
  end.

(** [strings.Contains], as the tests check error messages. *)
Fixpoint Contains (s substr : string) : bool :=
  String.prefix substr s ||
  match s with
  | EmptyString => false
  | String _ rest => Contains rest substr
  end.

(** ** The request body as [encoding/json] sees it *)

(** A JSON value found under one of the four keys. *)
Inductive JSONValue : Type :=
| JNull
| JString (s : string)
| JOther.   (* number, boolean, array or object *)

Record JSONObject : Type := mkJSONObject {
  j_external_id : option JSONValue;
  j_name : option JSONValue;
  j_email : option JSONValue;
  j_date_of_birth : option JSONValue
}.

Inductive Body : Type :=
| BadJSON                       (* no body, a syntax error, or not an object *)
| ObjectJSON (o : JSONObject).

(** Why [ShouldBindJSON] failed: the decoder stopped, or the validator
    rejected some fields (each with the first tag it failed). *)
Inductive BindError : Type :=
| DecodeError
| ValidationError (failed : list (string * string)).

(** ** The table behind [*gorm.DB] *)

Inductive DBError : Type :=
| ErrRecordNotFound
| ErrUniqueViolation
| ErrStorage.

Inductive Result (A : Type) : Type :=
| Ok (a : A)
| Err (e : DBError).
Arguments Ok {A} a.
Arguments Err {A} e.

(** The rows in insertion order and the sequence that feeds the primary key. *)
Record DB : Type := mkDB {
  rows : list Person;
  next_id : Z
}.

(** What a request meets outside the handler's control. *)
Record Env : Type := mkEnv {
  lookup_fault : bool;     (* the SELECT fails on I/O *)
  insert_fault : bool;     (* the INSERT fails on I/O *)
  now : Time;              (* the clock read by the ORM *)
  fresh_uuid : UUID        (* what uuid.New would return *)
}.

Definition with_fresh_uuid (u : UUID) (env : Env) : Env :=
  mkEnv (lookup_fault env) (insert_fault env) (now env) u.

Definition has_external_id (x : UUID) (p : Person) : bool :=
  N.eqb (ExternalID p) x.

Definition has_id (i : Z) (p : Person) : bool := ID p =? i.

(** [First] orders by primary key and keeps one row. *)
Fixpoint lowest_id (l : list Person) : option Person :=
  match l with
  | [] => None
  | p :: l' =>
      match lowest_id l' with
      | Some q => if ID q <? ID p then Some q else Some p
      | None => Some p
      end
  end.

Definition First (env : Env) (db : DB) (cond : Person -> bool)
  : Result Person :=
  if lookup_fault env then Err ErrStorage
  else match lowest_id (filter cond (rows db)) with
       | Some p => Ok p
       | None => Err ErrRecordNotFound
       end.

(** [db.Where("external_id = ?", x).First(&dest)] *)
Definition First_by_external_id (env : Env) (db : DB) (x : UUID)
  : Result Person :=
  First env db (has_external_id x).

(** [db.First(&dest, id)] *)
Definition First_by_id (env : Env) (db : DB) (i : Z) : Result Person :=
  First env db (has_id i).

Definition set_timestamps (t : Time) (p : Person) : Person :=
  mkPerson (ID p) (ExternalID p) (Name p) (Email p) (DateOfBirth p)
           (if Time_isZero (CreatedAt p) then t else CreatedAt p)
           (if Time_isZero (UpdatedAt p) then t else UpdatedAt p).

Definition set_ID (i : Z) (p : Person) : Person :=
  mkPerson i (ExternalID p) (Name p) (Email p) (DateOfBirth p)
           (CreatedAt p) (UpdatedAt p).

(** [db.Create(&p)]: the hook, the timestamps, then the INSERT against a
    table with a primary key on [id] and a unique constraint on
    [external_id].  A zero [ID] is drawn from the sequence, and a value drawn
    from the sequence is spent even when the row is rejected. *)
Definition Create (env : Env) (db : DB) (p : Person) : Result Person * DB :=
  let p := BeforeCreate (fresh_uuid env) p in
  let p := set_timestamps (now env) p in
  if insert_fault env then (Err ErrStorage, db)
  else
    let drawn := ID p =? 0 in
    let p := if drawn then set_ID (next_id db) p else p in
    let seq := if drawn then next_id db + 1 else next_id db in
    if existsb (has_id (ID p)) (rows db)
       || existsb (has_external_id (ExternalID p)) (rows db)
    then (Err ErrUniqueViolation, mkDB (rows db) seq)
    else (Ok p, mkDB (rows db ++ [p]) seq).

(** ** Store properties *)

(** The unique constraint on [external_id], as a property of the rows. *)
Definition unique_external_ids (db : DB) : Prop :=
  NoDup (map ExternalID (rows db)).

(** The primary key. *)
Definition unique_ids (db : DB) : Prop := NoDup (map ID (rows db)).

(** Every key in the table was drawn from the sequence. *)
Definition sequence_ahead (db : DB) : Prop :=
  Forall (fun p => ID p < next_id db) (rows db).

Definition count_external_id (x : UUID) (db : DB) : nat :=
  List.length (filter (has_external_id x) (rows db)).

(** No row is stored under [uuid.Nil]. *)
Definition no_nil_external_id (db : DB) : Prop :=
  Forall (fun p => ExternalID p <> Nil) (rows db).

(** The keys grow along the rows, in the order the rows were inserted. *)
Definition ids_increasing (db : DB) : Prop :=
  StronglySorted Z.lt (map ID (rows db)).

(** ** tests/person_test.go: cleaning up between tests *)

(** [name LIKE 'Test%'] and [name LIKE '%Test%']: the only wildcard in the
    two patterns is [%]. *)
Definition LIKE_Test_prefix (name : string) : bool := String.prefix "Test" name.
Definition LIKE_Test_infix (name : string) : bool := Contains name "Test".

Definition is_test_data (p : Person) : bool :=
  LIKE_Test_prefix (Name p) || LIKE_Test_infix (Name p).

(** [db.Where(cond).Delete(&models.Person{})]; the caller drops the result,
    so a statement that fails on I/O just leaves the table as it was.  The
    sequence is not rewound. *)
Definition Delete_where (fault : bool) (db : DB) (cond : Person -> bool) : DB :=
  if fault then db
  else mkDB (filter (fun p => negb (cond p)) (rows db)) (next_id db).

(** The package variable [db] may still be [nil]. *)
Definition cleanTestData (fault : bool) (db : option DB) : option DB :=
  match db with
  | Some d => Some (Delete_where fault d is_test_data)
  | None => None
  end.

(** ** Sample inputs *)

Module Sample.

Definition john_id : UUID := 0x550e8400e29b41d4a716446655440000%N.

Definition uuid_Parse (s : string) : option UUID :=
  if String.eqb s "550e8400-e29b-41d4-a716-446655440000" then Some john_id
  else if String.eqb s "00000000-0000-0000-0000-000000000000" then Some Nil
  else None.

(** Seconds since January 1 of year 1, as [ext] holds them. *)
Definition noon_1990 : Time := mkTime 0 62766792000 None.

Definition time_Parse (s : string) : option Time :=
  if String.eqb s "1990-01-01T12:00:00Z" then Some noon_1990 else None.

Definition is_email (s : string) : bool := Contains s "@".

Definition Error_text (e : BindError) : string :=
  match e with
  | DecodeError => "cannot decode the body"
  | ValidationError _ => "field validation failed"
  end.

Definition john_body : Body :=
  ObjectJSON
    (mkJSONObject (Some (JString "550e8400-e29b-41d4-a716-446655440000"))
                  (Some (JString "John Doe"))
                  (Some (JString "john.doe@example.com"))
                  (Some (JString "1990-01-01T12:00:00Z"))).

Definition john_req : SavePersonRequest :=
  mkSavePersonRequest john_id "John Doe" "john.doe@example.com" noon_1990.

Definition john : Person :=
  mkPerson 1 john_id "John Doe" "john.doe@example.com" noon_1990
           noon_1990 noon_1990.

Definition calm : Env := mkEnv false false noon_1990 7%N.

(** The SELECT fails on I/O, the INSERT right after it goes through. *)
Definition lookup_down : Env := mkEnv true false noon_1990 7%N.

(** The SELECT goes through, the INSERT fails on I/O. *)
Definition insert_down : Env := mkEnv false true noon_1990 7%N.

Definition empty_db : DB := mkDB [] 1.
Definition john_db : DB := mkDB [john] 2.

(** A second person, with a name as the tests give them. *)
Definition jane_id : UUID := 0x6ba7b8109dad11d180b400c04fd430c8%N.

Definition uuid_Parse_two (s : string) : option UUID :=
  if String.eqb s "6ba7b810-9dad-11d1-80b4-00c04fd430c8" then Some jane_id
  else uuid_Parse s.

Definition jane_body : Body :=
  ObjectJSON
    (mkJSONObject (Some (JString "6ba7b810-9dad-11d1-80b4-00c04fd430c8"))
                  (Some (JString "Test Jane Doe"))
                  (Some (JString "john.doe@example.com"))
                  (Some (JString "1990-01-01T12:00:00Z"))).

Definition jane_req : SavePersonRequest :=
  mkSavePersonRequest jane_id "Test Jane Doe" "john.doe@example.com" noon_1990.

Definition jane : Person :=
  mkPerson 2 jane_id "Test Jane Doe" "john.doe@example.com" noon_1990
           noon_1990 noon_1990.

Definition both_db : DB := mkDB [john; jane] 3.


End Sample.

(** ** handlers/person.go *)

Section Handlers.

(** The libraries the binding relies on, taken as they are. *)
Variable uuid_Parse : string -> option UUID.    (* uuid.UUID.UnmarshalText *)
Variable time_Parse : string -> option Time.    (* time.Time.UnmarshalJSON *)
Variable is_email : string -> bool.             (* the validator's email tag *)
Variable Error_text : BindError -> string.      (* err.Error() *)

(** A key that is missing, or [null], leaves the field at its zero value. *)
Definition decode_uuid (v : option JSONValue) : BindError + UUID :=
  match v with
  | None | Some JNull => inr Nil
  | Some (JString s) =>
      match uuid_Parse s with
      | Some u => inr u
      | None => inl DecodeError
      end
  | Some JOther => inl DecodeError
  end.

Definition decode_string (v : option JSONValue) : BindError + string :=
  match v with
  | None | Some JNull => inr EmptyString
  | Some (JString s) => inr s
  | Some JOther => inl DecodeError
  end.

Definition decode_time (v : option JSONValue) : BindError + Time :=
  match v with
  | None | Some JNull => inr zeroTime
  | Some (JString s) =>
      match time_Parse s with
      | Some t => inr t
      | None => inl DecodeError
      end
  | Some JOther => inl DecodeError
  end.

Definition decodeJSON (b : Body) : BindError + SavePersonRequest :=
  match b with
  | BadJSON => inl DecodeError
  | ObjectJSON o =>
      match decode_uuid (j_external_id o), decode_string (j_name o),
            decode_string (j_email o), decode_time (j_date_of_birth o) with
      | inr u, inr n, inr e, inr t => inr (mkSavePersonRequest u n e t)
      | _, _, _, _ => inl DecodeError
      end
  end.

(** The [binding] tags of [SavePersonRequest], field by field. *)
Definition validate (req : SavePersonRequest) : list (string * string) :=
  (if UUID_isZero (req_ExternalID req)
   then [("ExternalID", "required")] else [])
  ++ (if string_isZero (req_Name req)
      then [("Name", "required")] else [])
  ++ (if string_isZero (req_Email req) then [("Email", "required")]
      else if is_email (req_Email req) then [] else [("Email", "email")])
  ++ (if Time_isZero (req_DateOfBirth req)
      then [("DateOfBirth", "required")] else []).

Definition ShouldBindJSON (b : Body) : BindError + SavePersonRequest :=
  match decodeJSON b with
  | inl err => inl err
  | inr req =>
      match validate req with
      | [] => inr req
      | failed => inl (ValidationError failed)
      end
  end.

Definition SavePerson (env : Env) (db : DB) (b : Body) : Response * DB :=
  match ShouldBindJSON b with
  | inl err =>
      (JSON StatusBadRequest
         (ErrorJSON (mkErrorResponse ("Invalid request: " ++ Error_text err))),
       db)
  | inr req =>
      match First_by_external_id env db (req_ExternalID req) with
      | Ok _ =>
          (JSON StatusConflict
             (ErrorJSON
                (mkErrorResponse "Person with this external_id already exists")),
           db)
      | Err _ =>
          let person := FromSaveRequest req in
          match Create env db person with
          | (Err _, db') =>
              (JSON StatusInternalServerError
                 (ErrorJSON (mkErrorResponse "Failed to save person")),
               db')
          | (Ok person, db') =>
              (JSON StatusCreated (PersonJSON (ToResponse person)), db')
          end
      end
  end.

Definition GetPerson (env : Env) (db : DB) (idStr : string) : Response * DB :=
  match strconv.ParseUint idStr 10 32 with
  | (_, Some _) =>
      (JSON StatusBadRequest
         (ErrorJSON (mkErrorResponse "Invalid ID format")), db)
  | (id, None) =>
      match First_by_id env db id with
      | Err ErrRecordNotFound =>
          (JSON StatusNotFound
             (ErrorJSON (mkErrorResponse "Person not found")), db)
      | Err _ =>
          (JSON StatusInternalServerError
             (ErrorJSON (mkErrorResponse "Failed to retrieve person")), db)
      | Ok person => (JSON StatusOK (PersonJSON (ToResponse person)), db)
      end
  end.

(** ** main.go: the three routes *)

Inductive Request : Type :=
| GET_health
| POST_save (b : Body)
| GET_id (id : string).

Definition health : Response := JSON 200 (MapJSON [("status", "ok")]).

Definition ServeHTTP (env : Env) (db : DB) (r : Request) : Response * DB :=
  match r with
  | GET_health => (health, db)
  | POST_save b => SavePerson env db b
  | GET_id id => GetPerson env db id
  end.

(** The requests of a run, one after the other, each with what it met. *)
Fixpoint serve_all (db : DB) (l : list (Env * Request)) : DB :=
  match l with
  | [] => db
  | (env, r) :: l' => serve_all (snd (ServeHTTP env db r)) l'
  end.

Inductive reachable (db0 : DB) : DB -> Prop :=
| reach_start : reachable db0 db0
| reach_step : forall db env r,
    reachable db0 db -> reachable db0 (snd (ServeHTTP env db r)).

(** Requests that are not a save. *)
Definition is_read (r : Request) : bool :=
  match r with
  | POST_save _ => false
  | GET_health | GET_id _ => true
  end.

(** ** What the contract calls things *)

(** The ways a payload can be wrong, in the words of the validator's
    contract. *)
Definition field_absent (o : JSONObject) : Prop :=
  j_external_id o = None \/ j_name o = None \/
  j_email o = None \/ j_date_of_birth o = None.

Definition external_id_not_a_uuid (o : JSONObject) : Prop :=
  j_external_id o = Some JOther \/
  exists s, j_external_id o = Some (JString s) /\ uuid_Parse s = None.

Definition email_not_matching (o : JSONObject) : Prop :=
  j_email o = Some JOther \/
  exists s, j_email o = Some (JString s) /\ is_email s = false.

Definition date_of_birth_unparseable (o : JSONObject) : Prop :=
  j_date_of_birth o = Some JOther \/
  exists s, j_date_of_birth o = Some (JString s) /\ time_Parse s = None.

(** A path parameter that reads as a positive integer: decimal digits
    only, at least one, and a value above zero. *)
Fixpoint decimal_value (s : string) (acc : Z) : option Z :=
  match s with
  | EmptyString => Some acc
  | String c rest =>
      let b := strconv.byte_of c in
      if (48 <=? b) && (b <=? 57)
      then decimal_value rest (acc * 10 + (b - 48))
      else None
  end.

Definition decimal (s : string) : option Z :=
  match s with
  | EmptyString => None
  | String _ _ => decimal_value s 0
  end.

Definition parses_as_positive_integer (s : string) : bool :=
  match decimal s with
  | Some v => 0 <? v
  | None => false
  end.

(** What [ParseUint(s, 10, 32)] accepts: the same digits, any value that
    fits 32 bits, zero included. *)
Definition parses_as_uint32 (s : string) : bool :=
  match decimal s with
  | Some v => v <=? 4294967295
  | None => false
  end.

(** The constants of [ParseUint(s, 10, 32)]. *)
Definition cutoff10 : Z := strconv.maxUint64 / 10 + 1.
Definition maxUint32 : Z := 4294967295.

(** ** Lookups *)

Lemma lowest_id_In (l : list Person) (p : Person) :
  lowest_id l = Some p -> In p l.
Proof.
  revert p; induction l as [|a l IH]; simpl; intros p H; [discriminate|].
  destruct (lowest_id l) as [q|].
  - destruct (ID q <? ID a); inversion H; subst; auto.
  - inversion H; auto.
Qed.

Lemma lowest_id_None (l : list Person) : lowest_id l = None -> l = [].
Proof.
  destruct l as [|a l]; simpl; [reflexivity|].
  destruct (lowest_id l) as [q|]; [destruct (ID q <? ID a)|]; discriminate.
Qed.

Lemma First_Ok env db cond p :
  First env db cond = Ok p -> In p (rows db) /\ cond p = true.
Proof.
  unfold First. destruct (lookup_fault env); [discriminate|].
  destruct (lowest_id (filter cond (rows db))) as [q|] eqn:E; [|discriminate].
  intros H; inversion H; subst.
  apply lowest_id_In in E. now apply filter_In in E.
Qed.

Lemma First_NotFound env db cond :
  First env db cond = Err ErrRecordNotFound <->
  lookup_fault env = false /\ forall p, In p (rows db) -> cond p = false.
Proof.
  unfold First. destruct (lookup_fault env).
  - split; [discriminate|intros [? _]; discriminate].
  - destruct (lowest_id (filter cond (rows db))) as [q|] eqn:E.
    + split; [discriminate|]. intros [_ H].
      apply lowest_id_In, filter_In in E. destruct E as [Hin Hc].
      rewrite (H _ Hin) in Hc. discriminate.
    + split; auto. intros _. split; auto. intros p Hin.
      apply lowest_id_None in E.
      destruct (cond p) eqn:Hc; auto.
      assert (In p (filter cond (rows db))) as Hf by (apply filter_In; auto).
      rewrite E in Hf. destruct Hf.
Qed.

Lemma First_found env db cond p :
  lookup_fault env = false -> In p (rows db) -> cond p = true ->
  exists q, First env db cond = Ok q.
Proof.
  intros Hf Hin Hc.
  destruct (First env db cond) as [q|e] eqn:E; [eauto|].
  exfalso. unfold First in E. rewrite Hf in E.
  destruct (lowest_id (filter cond (rows db))) as [q|] eqn:El; [discriminate|].
  apply lowest_id_None in El.
  assert (In p (filter cond (rows db))) as H by (apply filter_In; auto).
  rewrite El in H. destruct H.
Qed.

Lemma First_fault env db cond :
  lookup_fault env = true -> First env db cond = Err ErrStorage.
Proof. unfold First. now intros ->. Qed.

Lemma has_external_id_true x p : has_external_id x p = true <-> ExternalID p = x.
Proof. unfold has_external_id. apply N.eqb_eq. Qed.

Lemma has_id_true i p : has_id i p = true <-> ID p = i.
Proof. unfold has_id. apply Z.eqb_eq. Qed.

Lemma Contains_already_exists :
  Contains "Person with this external_id already exists" "already exists" = true.
Proof. reflexivity. Qed.

(** With the unique constraint in force, a stored identifier is stored once. *)
Lemma count_external_id_one (l : list Person) (p : Person) :
  NoDup (map ExternalID l) -> In p l ->
  List.length (filter (has_external_id (ExternalID p)) l) = 1%nat.
Proof.
  induction l as [|a l IH]; simpl; intros Hnd Hin; [destruct Hin|].
  inversion Hnd as [|? ? Hnot Hnd']; subst.
  destruct Hin as [->|Hin].
  - unfold has_external_id at 1. rewrite N.eqb_refl. simpl. f_equal.
    destruct (filter (has_external_id (ExternalID p)) l) as [|q r] eqn:E; auto.
    exfalso. apply Hnot.
    assert (In q (filter (has_external_id (ExternalID p)) l)) as Hq
      by (rewrite E; left; reflexivity).
    apply filter_In in Hq. destruct Hq as [Hq Hx].
    apply has_external_id_true in Hx. rewrite <- Hx. now apply in_map.
  - destruct (has_external_id (ExternalID p) a) eqn:Ha; [|auto].
    exfalso. apply Hnot. apply has_external_id_true in Ha. rewrite Ha.
    now apply in_map.
Qed.

(** ** Saving *)

Lemma SavePerson_rejected env db b err :
  ShouldBindJSON b = inl err ->
  SavePerson env db b =
  (JSON StatusBadRequest
     (ErrorJSON (mkErrorResponse ("Invalid request: " ++ Error_text err))), db).
Proof. unfold SavePerson. now intros ->. Qed.

Lemma ShouldBindJSON_valid b req :
  ShouldBindJSON b = inr req -> validate req = [].
Proof.
  unfold ShouldBindJSON. destruct (decodeJSON b) as [e|r]; [discriminate|].
  destruct (validate r) eqn:E; [|discriminate].
  intros H; inversion H; subst; assumption.
Qed.

Lemma validate_nil req :
  validate req = [] ->
  UUID_isZero (req_ExternalID req) = false /\
  string_isZero (req_Name req) = false /\
  string_isZero (req_Email req) = false /\
  is_email (req_Email req) = true /\
  Time_isZero (req_DateOfBirth req) = false.
Proof.
  unfold validate.
  destruct (UUID_isZero _); [discriminate|].
  destruct (string_isZero (req_Name req)); [discriminate|].
  destruct (string_isZero (req_Email req)); [discriminate|].
  destruct (is_email _); [|discriminate].
  destruct (Time_isZero _); [discriminate|].
  auto.
Qed.

Lemma valid_not_Nil b req :
  ShouldBindJSON b = inr req -> N.eqb (req_ExternalID req) Nil = false.
Proof.
  intros H. apply ShouldBindJSON_valid, validate_nil in H. apply H.
Qed.

(** C1: when the store already holds a record with the external_id of a
    valid save request and the lookup goes through, [SavePerson] answers 409
    with a message containing "already exists" and leaves the store as it
    was; under the unique constraint exactly one record with that
    external_id remains. *)
Theorem SavePerson_duplicate_conflict env db b req p :
  ShouldBindJSON b = inr req ->
  In p (rows db) ->
  ExternalID p = req_ExternalID req ->
  lookup_fault env = false ->
  let (resp, db') := SavePerson env db b in
  status resp = StatusConflict /\
  (exists m, error_message resp = Some m /\
             Contains m "already exists" = true) /\
  db' = db /\
  (unique_external_ids db ->
   count_external_id (req_ExternalID req) db' = 1%nat).
Proof.
  intros Hb Hin Hx Hf. unfold SavePerson. rewrite Hb.
  destruct (First_found env db (has_external_id (req_ExternalID req)) p Hf Hin)
    as [q Hq]; [now apply has_external_id_true|].
  unfold First_by_external_id. rewrite Hq.
  repeat split.
  - eexists; split; [reflexivity|apply Contains_already_exists].
  - intros Hu. unfold count_external_id. rewrite <- Hx.
    now apply count_external_id_one.
Qed.

Lemma existsb_false {A} (f : A -> bool) (l : list A) :
  (forall x, In x l -> f x = false) -> existsb f l = false.
Proof.
  induction l as [|a l IH]; simpl; intros H; [reflexivity|].
  rewrite (H a) by auto. simpl. apply IH. auto.
Qed.

Lemma absent_not_found env db x :
  (forall p, In p (rows db) -> ExternalID p <> x) ->
  exists e, First_by_external_id env db x = Err e.
Proof.
  intros Habs. unfold First_by_external_id.
  destruct (First env db (has_external_id x)) as [q|e] eqn:E; [|eauto].
  apply First_Ok in E. destruct E as [Hin Hx].
  apply has_external_id_true in Hx. now apply Habs in Hin.
Qed.

Lemma BeforeCreate_valid b req u :
  ShouldBindJSON b = inr req ->
  BeforeCreate u (FromSaveRequest req) = FromSaveRequest req.
Proof.
  intros H. unfold BeforeCreate. simpl. now rewrite (valid_not_Nil _ _ H).
Qed.

(** What [Create] does with the person [SavePerson] hands it, once the
    INSERT reaches a table that holds neither its key nor its external_id. *)
Lemma Create_fresh env db b req :
  ShouldBindJSON b = inr req ->
  (forall p, In p (rows db) -> ExternalID p <> req_ExternalID req) ->
  insert_fault env = false ->
  sequence_ahead db ->
  let person :=
    mkPerson (next_id db) (req_ExternalID req) (req_Name req) (req_Email req)
             (req_DateOfBirth req) (now env) (now env) in
  Create env db (FromSaveRequest req) =
  (Ok person, mkDB (rows db ++ [person]) (next_id db + 1)).
Proof.
  intros Hb Habs Hf Hseq. unfold Create.
  rewrite (BeforeCreate_valid _ _ _ Hb), Hf. simpl.
  rewrite !existsb_false; [reflexivity| |].
  - intros p Hin. unfold has_external_id. apply N.eqb_neq. now apply Habs.
  - intros p Hin. unfold has_id. apply Z.eqb_neq.
    unfold sequence_ahead in Hseq. rewrite Forall_forall in Hseq.
    specialize (Hseq p Hin). lia.
Qed.

(** C4: a valid save request whose external_id the store does not hold,
    with the INSERT going through, is answered 201 with a body whose
    external_id, name, email and date_of_birth are those of the request;
    [ToResponse (FromSaveRequest req)] has the same four fields as [req]. *)
Theorem SavePerson_created_echoes_request env db b req :
  ShouldBindJSON b = inr req ->
  (forall p, In p (rows db) -> ExternalID p <> req_ExternalID req) ->
  insert_fault env = false ->
  sequence_ahead db ->
  let echoed :=
    mkPersonResponse (req_ExternalID req) (req_Name req) (req_Email req)
                     (req_DateOfBirth req) in
  status (fst (SavePerson env db b)) = StatusCreated /\
  payload (fst (SavePerson env db b)) = PersonJSON echoed /\
  ToResponse (FromSaveRequest req) = echoed.
Proof.
  intros Hb Habs Hf Hseq. unfold SavePerson. rewrite Hb.
  destruct (absent_not_found env db _ Habs) as [e ->].
  rewrite (Create_fresh env db b req Hb Habs Hf Hseq). simpl.
  repeat split.
Qed.

(** ** Rejected payloads *)

Lemma decodeJSON_fields o req :
  decodeJSON (ObjectJSON o) = inr req ->
  decode_uuid (j_external_id o) = inr (req_ExternalID req) /\
  decode_string (j_name o) = inr (req_Name req) /\
  decode_string (j_email o) = inr (req_Email req) /\
  decode_time (j_date_of_birth o) = inr (req_DateOfBirth req).
Proof.
  simpl.
  destruct (decode_uuid _) as [?|u]; [discriminate|].
  destruct (decode_string (j_name o)) as [?|n]; [discriminate|].
  destruct (decode_string (j_email o)) as [?|e]; [discriminate|].
  destruct (decode_time _) as [?|t]; [discriminate|].
  intros H; inversion H; subst; simpl; auto.
Qed.

Lemma ShouldBindJSON_fields o req :
  ShouldBindJSON (ObjectJSON o) = inr req ->
  decode_uuid (j_external_id o) = inr (req_ExternalID req) /\
  decode_string (j_name o) = inr (req_Name req) /\
  decode_string (j_email o) = inr (req_Email req) /\
  decode_time (j_date_of_birth o) = inr (req_DateOfBirth req).
Proof.
  unfold ShouldBindJSON.
  destruct (decodeJSON (ObjectJSON o)) as [?|r] eqn:E; [discriminate|].
  destruct (validate r); [|discriminate].
  intros H; inversion H; subst. now apply decodeJSON_fields.
Qed.

Lemma invalid_payload_not_bound o :
  field_absent o \/ external_id_not_a_uuid o \/
  email_not_matching o \/ date_of_birth_unparseable o ->
  exists err, ShouldBindJSON (ObjectJSON o) = inl err.
Proof.
  intros Hbad.
  destruct (ShouldBindJSON (ObjectJSON o)) as [err|req] eqn:E; [eauto|].
  exfalso.
  destruct (ShouldBindJSON_fields _ _ E) as (Hu & Hn & He & Ht).
  apply ShouldBindJSON_valid, validate_nil in E.
  destruct E as (Vu & Vn & Ve & Vm & Vt).
  destruct Hbad
    as [[H|[H|[H|H]]]
       |[[H|(s & H & Hp)]|[[H|(s & H & Hp)]|[H|(s & H & Hp)]]]];
    rewrite H in *; simpl in *.
  - inversion Hu as [Hx]. rewrite <- Hx in Vu. discriminate.
  - inversion Hn as [Hx]. rewrite <- Hx in Vn. discriminate.
  - inversion He as [Hx]. rewrite <- Hx in Ve. discriminate.
  - inversion Ht as [Hx]. rewrite <- Hx in Vt. discriminate.
  - discriminate.
  - rewrite Hp in Hu. discriminate.
  - discriminate.
  - inversion He as [Hx]. rewrite <- Hx in Vm. congruence.
  - discriminate.
  - rewrite Hp in Ht. discriminate.
Qed.

(** C5: a payload with one of the four fields absent, an external_id that
    is not a UUID, an email that does not match the email syntax or a
    date_of_birth that does not parse is answered 400 with a message that
    starts "Invalid request: ", and the store is left as it was. *)
Theorem SavePerson_invalid_payload_400 env db o :
  field_absent o \/ external_id_not_a_uuid o \/
  email_not_matching o \/ date_of_birth_unparseable o ->
  exists msg,
    SavePerson env db (ObjectJSON o) =
    (JSON StatusBadRequest
       (ErrorJSON (mkErrorResponse ("Invalid request: " ++ msg))), db).
Proof.
  intros Hbad. destruct (invalid_payload_not_bound o Hbad) as [err Herr].
  exists (Error_text err). now apply SavePerson_rejected.
Qed.

(** C9: a payload whose external_id is the all-zero UUID (spelled out, null
    or missing) is answered 400 and changes nothing; [BeforeCreate] never
    replaces the external_id of a request that passed the binding, whatever
    [uuid.New] would have returned; and every record [SavePerson] adds
    carries the external_id the client sent. *)
Theorem SavePerson_nil_external_id_rejected env db o :
  decode_uuid (j_external_id o) = inr Nil ->
  (status (fst (SavePerson env db (ObjectJSON o))) = StatusBadRequest /\
   snd (SavePerson env db (ObjectJSON o)) = db) /\
  (forall b req u,
      ShouldBindJSON b = inr req ->
      BeforeCreate u (FromSaveRequest req) = FromSaveRequest req) /\
  (forall env' db' b u,
      SavePerson (with_fresh_uuid u env') db' b = SavePerson env' db' b) /\
  (forall env' db' b p,
      In p (rows (snd (SavePerson env' db' b))) ->
      In p (rows db') \/
      exists req, ShouldBindJSON b = inr req /\
                  ExternalID p = req_ExternalID req).
Proof.
  intros Hnil. split; [|split; [|split]].
  - destruct (ShouldBindJSON (ObjectJSON o)) as [err|req] eqn:E.
    + rewrite (SavePerson_rejected env db _ err E). simpl. auto.
    + exfalso. destruct (ShouldBindJSON_fields _ _ E) as (Hu & _).
      apply valid_not_Nil in E. rewrite Hnil in Hu.
      inversion Hu as [Hx]. rewrite <- Hx in E. discriminate.
  - intros b req u Hb. now apply (BeforeCreate_valid b).
  - intros env' db' b u. unfold SavePerson.
    destruct (ShouldBindJSON b) as [err|req] eqn:E; [reflexivity|].
    unfold First_by_external_id, First, Create. simpl.
    rewrite !(BeforeCreate_valid _ _ _ E). reflexivity.
  - intros env' db' b p. unfold SavePerson.
    destruct (ShouldBindJSON b) as [err|req] eqn:E; [simpl; auto|].
    destruct (First_by_external_id env' db' (req_ExternalID req));
      [simpl; auto|].
    unfold Create. rewrite (BeforeCreate_valid _ _ _ E).
    destruct (insert_fault env'); [simpl; auto|].
    simpl.
    destruct (existsb _ _ || existsb _ _); simpl; [auto|].
    intros Hin. apply in_app_or in Hin. destruct Hin as [Hin|[<-|[]]]; [auto|].
    right. exists req. split; reflexivity.
Qed.

(** ** The response mapper *)

(** C8: [ToResponse] is total, returns exactly the external_id, name, email
    and date_of_birth of the person it is given, and its result does not
    depend on the internal identifier or on the two audit timestamps. *)
Theorem ToResponse_four_public_fields (p : Person) :
  ToResponse p =
  mkPersonResponse (ExternalID p) (Name p) (Email p) (DateOfBirth p) /\
  forall (i : Z) (created updated : Time),
    ToResponse (mkPerson i (ExternalID p) (Name p) (Email p) (DateOfBirth p)
                         created updated) = ToResponse p.
Proof. split; [reflexivity|intros; reflexivity]. Qed.

(** ** The health route *)

(** C10: GET /health is answered 200 with the map [status -> ok] whatever
    the store holds and whatever the request meets, and leaves the store
    alone. *)
Theorem health_always_ok (env : Env) (db : DB) :
  ServeHTTP env db GET_health = (JSON 200 (MapJSON [("status", "ok")]), db).
Proof. reflexivity. Qed.

(** ** Storage failures while saving *)

Lemma SavePerson_insert_fault env db b req :
  ShouldBindJSON b = inr req ->
  (forall p, In p (rows db) -> ExternalID p <> req_ExternalID req) ->
  insert_fault env = true ->
  SavePerson env db b =
  (JSON StatusInternalServerError
     (ErrorJSON (mkErrorResponse "Failed to save person")), db).
Proof.
  intros Hb Habs Hf. unfold SavePerson. rewrite Hb.
  destruct (absent_not_found env db _ Habs) as [e ->].
  unfold Create. now rewrite Hf.
Qed.

(** What a failed lookup leads to: the handler goes on to [Create], and the
    answer is whatever the INSERT makes of it. *)
Lemma SavePerson_lookup_fault env db b req :
  ShouldBindJSON b = inr req ->
  lookup_fault env = true ->
  SavePerson env db b =
  match Create env db (FromSaveRequest req) with
  | (Err _, db') =>
      (JSON StatusInternalServerError
         (ErrorJSON (mkErrorResponse "Failed to save person")), db')
  | (Ok person, db') =>
      (JSON StatusCreated (PersonJSON (ToResponse person)), db')
  end.
Proof.
  intros Hb Hf. unfold SavePerson. rewrite Hb.
  unfold First_by_external_id. now rewrite (First_fault _ _ _ Hf).
Qed.

(** A duplicate whose lookup failed is stopped by the unique constraint:
    500, and the rows are the ones before. *)
Lemma SavePerson_duplicate_lookup_fault env db b req p :
  ShouldBindJSON b = inr req ->
  In p (rows db) ->
  ExternalID p = req_ExternalID req ->
  lookup_fault env = true ->
  status (fst (SavePerson env db b)) = StatusInternalServerError /\
  rows (snd (SavePerson env db b)) = rows db.
Proof.
  intros Hb Hin Hx Hf. rewrite (SavePerson_lookup_fault env db b req Hb Hf).
  unfold Create. rewrite (BeforeCreate_valid _ _ _ Hb).
  destruct (insert_fault env); [simpl; auto|]. simpl.
  assert (existsb (has_external_id (req_ExternalID req)) (rows db) = true)
    as ->.
  { apply existsb_exists. exists p. split; [assumption|].
    now apply has_external_id_true. }
  rewrite orb_true_r. simpl. auto.
Qed.

(** ** Parsing the path parameter *)

Lemma geb_false a b : a < b -> (a >=? b) = false.
Proof. intros H. rewrite Z.geb_leb. now apply Z.leb_gt. Qed.

Lemma geb_true a b : b <= a -> (a >=? b) = true.
Proof. intros H. rewrite Z.geb_leb. now apply Z.leb_le. Qed.

Lemma wrap64_small z : 0 <= z < 2 ^ 64 -> strconv.wrap64 z = z.
Proof. intros H. unfold strconv.wrap64. now apply Z.mod_small. Qed.

Lemma digit_decimal b :
  (48 <=? b) && (b <=? 57) = true -> strconv.digit b = Some (b - 48).
Proof. unfold strconv.digit. now intros ->. Qed.

Lemma digit_other b :
  (48 <=? b) && (b <=? 57) = false ->
  strconv.digit b = None \/ exists d, strconv.digit b = Some d /\ 10 <= d.
Proof.
  unfold strconv.digit. intros ->.
  destruct ((97 <=? strconv.lower b) && (strconv.lower b <=? 122)) eqn:E; auto.
  right. eexists; split; [reflexivity|].
  apply andb_prop in E. destruct E as [E _]. apply Z.leb_le in E. lia.
Qed.

Lemma decimal_value_ge s : forall n v,
  0 <= n -> decimal_value s n = Some v -> n <= v.
Proof.
  induction s as [|c s IH]; simpl; intros n v Hn H.
  - inversion H; lia.
  - destruct ((48 <=? strconv.byte_of c) && (strconv.byte_of c <=? 57)) eqn:E;
      [|discriminate].
    apply andb_prop in E. destruct E as [E1 E2].
    apply Z.leb_le in E1. apply IH in H; lia.
Qed.

(** The loop against the digits it reads: inside the 32-bit range nothing
    wraps, so the only range error is a value above [maxUint32]. *)
Lemma loop_10_32 s : forall n,
  0 <= n <= maxUint32 ->
  match decimal_value s n with
  | Some v =>
      if v <=? maxUint32
      then strconv.loop 10 cutoff10 maxUint32 s n = (v, None)
      else strconv.loop 10 cutoff10 maxUint32 s n =
           (maxUint32, Some strconv.ErrRange)
  | None =>
      exists r e, strconv.loop 10 cutoff10 maxUint32 s n = (r, Some e)
  end.
Proof.
  unfold maxUint32.
  induction s as [|c s IH]; intros n Hn; simpl.
  - destruct (n <=? 4294967295) eqn:E; [reflexivity|].
    apply Z.leb_gt in E. lia.
  - destruct ((48 <=? strconv.byte_of c) && (strconv.byte_of c <=? 57)) eqn:E.
    + rewrite (digit_decimal _ E).
      apply andb_prop in E. destruct E as [E1 E2].
      apply Z.leb_le in E1, E2.
      set (d := strconv.byte_of c - 48) in *.
      assert (0 <= d <= 9) as Hd by (unfold d; lia).
      rewrite (geb_false d 10) by lia.
      rewrite (geb_false n cutoff10)
        by (change cutoff10 with 1844674407370955162; lia).
      rewrite (wrap64_small (n * 10)) by lia.
      rewrite (wrap64_small (n * 10 + d)) by lia.
      replace (n * 10 + d <? n * 10) with false
        by (symmetry; apply Z.ltb_ge; lia).
      simpl.
      destruct (n * 10 + d >? 4294967295) eqn:G.
      * apply Z.gtb_lt in G.
        destruct (decimal_value s (n * 10 + d)) as [v|] eqn:V; [|eauto].
        apply decimal_value_ge in V; [|lia].
        replace (v <=? 4294967295) with false
          by (symmetry; apply Z.leb_gt; lia).
        reflexivity.
      * apply IH. rewrite Z.gtb_ltb in G. apply Z.ltb_ge in G. lia.
    + destruct (digit_other _ E) as [->|(d & -> & Hd)]; [eauto|].
      rewrite (geb_true d 10) by lia.
      eauto.
Qed.

Lemma ParseUint_10_32_unfold c s :
  strconv.ParseUint (String c s) 10 32 =
  strconv.loop 10 cutoff10 maxUint32 (String c s) 0.
Proof. reflexivity. Qed.

(** [ParseUint(s, 10, 32)] succeeds exactly on the non-empty digit strings
    whose value fits 32 bits, and returns that value. *)
Lemma ParseUint_10_32_spec s :
  match decimal s with
  | Some v =>
      if v <=? maxUint32
      then strconv.ParseUint s 10 32 = (v, None)
      else strconv.ParseUint s 10 32 = (maxUint32, Some strconv.ErrRange)
  | None => exists r e, strconv.ParseUint s 10 32 = (r, Some e)
  end.
Proof.
  destruct s as [|c s].
  - simpl. eauto.
  - rewrite ParseUint_10_32_unfold. unfold decimal.
    apply loop_10_32. unfold maxUint32. lia.
Qed.

Lemma ParseUint_accepts s :
  parses_as_uint32 s = true ->
  exists i, decimal s = Some i /\ 0 <= i <= maxUint32 /\
            strconv.ParseUint s 10 32 = (i, None).
Proof.
  unfold parses_as_uint32. pose proof (ParseUint_10_32_spec s) as H.
  destruct (decimal s) as [v|] eqn:D; [|discriminate].
  intros Hv. change 4294967295 with maxUint32 in Hv. rewrite Hv in H.
  exists v. repeat split; auto.
  - destruct s as [|c s]; [discriminate|]. unfold decimal in D.
    apply decimal_value_ge in D; lia.
  - now apply Z.leb_le.
Qed.

Lemma ParseUint_refuses s :
  parses_as_uint32 s = false ->
  exists r e, strconv.ParseUint s 10 32 = (r, Some e).
Proof.
  unfold parses_as_uint32. pose proof (ParseUint_10_32_spec s) as H.
  destruct (decimal s) as [v|] eqn:D; [|auto].
  intros Hv. change 4294967295 with maxUint32 in Hv. rewrite Hv in H. eauto.
Qed.

(** ** Getting *)

Lemma GetPerson_parsed env db s i :
  strconv.ParseUint s 10 32 = (i, None) ->
  GetPerson env db s =
  match First_by_id env db i with
  | Err ErrRecordNotFound =>
      (JSON StatusNotFound
         (ErrorJSON (mkErrorResponse "Person not found")), db)
  | Err _ =>
      (JSON StatusInternalServerError
         (ErrorJSON (mkErrorResponse "Failed to retrieve person")), db)
  | Ok person => (JSON StatusOK (PersonJSON (ToResponse person)), db)
  end.
Proof. unfold GetPerson. now intros ->. Qed.

Lemma GetPerson_unparsed env db s r e :
  strconv.ParseUint s 10 32 = (r, Some e) ->
  GetPerson env db s =
  (JSON StatusBadRequest (ErrorJSON (mkErrorResponse "Invalid ID format")), db).
Proof. unfold GetPerson. now intros ->. Qed.

Lemma GetPerson_parsed_status env db s i :
  strconv.ParseUint s 10 32 = (i, None) ->
  status (fst (GetPerson env db s)) = StatusOK \/
  status (fst (GetPerson env db s)) = StatusNotFound \/
  status (fst (GetPerson env db s)) = StatusInternalServerError.
Proof.
  intros H. rewrite (GetPerson_parsed env db s i H).
  destruct (First_by_id env db i) as [q|[ | | ]]; simpl; auto.
Qed.

(** C3, as the code has it: [GetPerson] answers 400 "Invalid ID format"
    exactly when the path parameter is not a non-empty string of decimal
    digits with a value of at most 4294967295; any other parameter, "0"
    included, goes to the store lookup with that value and is answered 200,
    404 or 500. *)
Theorem GetPerson_invalid_id_iff_not_uint32 env db s :
  (status (fst (GetPerson env db s)) = StatusBadRequest <->
   parses_as_uint32 s = false) /\
  (if parses_as_uint32 s
   then exists i,
       decimal s = Some i /\
       GetPerson env db s =
       match First_by_id env db i with
       | Err ErrRecordNotFound =>
           (JSON StatusNotFound
              (ErrorJSON (mkErrorResponse "Person not found")), db)
       | Err _ =>
           (JSON StatusInternalServerError
              (ErrorJSON (mkErrorResponse "Failed to retrieve person")), db)
       | Ok person => (JSON StatusOK (PersonJSON (ToResponse person)), db)
       end /\
       (status (fst (GetPerson env db s)) = StatusOK \/
        status (fst (GetPerson env db s)) = StatusNotFound \/
        status (fst (GetPerson env db s)) = StatusInternalServerError)
   else GetPerson env db s =
        (JSON StatusBadRequest
           (ErrorJSON (mkErrorResponse "Invalid ID format")), db)).
Proof.
  destruct (parses_as_uint32 s) eqn:P.
  - destruct (ParseUint_accepts s P) as (i & D & _ & H).
    split.
    + split; [|discriminate]. intros S400.
      destruct (GetPerson_parsed_status env db s i H) as [S|[S|S]];
        rewrite S in S400; discriminate.
    + exists i. repeat split; auto using GetPerson_parsed.
      now apply (GetPerson_parsed_status env db s i).
  - destruct (ParseUint_refuses s P) as (r & e & H).
    rewrite (GetPerson_unparsed env db s r e H). simpl. split; [|reflexivity].
    split; reflexivity.
Qed.

Lemma NoDup_map_In_eq {A B} (f : A -> B) (l : list A) (x y : A) :
  NoDup (map f l) -> In x l -> In y l -> f x = f y -> x = y.
Proof.
  induction l as [|a l IH]; simpl; intros Hnd Hx Hy Hf; [destruct Hx|].
  inversion Hnd as [|? ? Hnot Hnd']; subst.
  destruct Hx as [->|Hx], Hy as [->|Hy]; auto.
  - exfalso. apply Hnot. rewrite Hf. now apply in_map.
  - exfalso. apply Hnot. rewrite <- Hf. now apply in_map.
Qed.

(** C6: for a path parameter that parses to [i] and a lookup that goes
    through, [GetPerson] answers 404 "Person not found" exactly when no
    record has internal identifier [i], and 200 with the mapped
    representation of the record that has it; a 404 never hides a record;
    the store is left as it was. *)
Theorem GetPerson_not_found_iff_absent env db s i :
  strconv.ParseUint s 10 32 = (i, None) ->
  lookup_fault env = false ->
  (fst (GetPerson env db s) =
     JSON StatusNotFound (ErrorJSON (mkErrorResponse "Person not found")) <->
   forall p, In p (rows db) -> ID p <> i) /\
  (status (fst (GetPerson env db s)) = StatusNotFound <->
   forall p, In p (rows db) -> ID p <> i) /\
  (forall p, In p (rows db) -> ID p = i -> unique_ids db ->
             fst (GetPerson env db s) =
             JSON StatusOK (PersonJSON (ToResponse p))) /\
  snd (GetPerson env db s) = db.
Proof.
  intros Hparse Hf. rewrite (GetPerson_parsed env db s i Hparse).
  unfold First_by_id.
  assert ((forall p, In p (rows db) -> ID p <> i) <->
          First env db (has_id i) = Err ErrRecordNotFound) as Habs.
  { rewrite First_NotFound. split.
    - intros H. split; [assumption|]. intros p Hin. unfold has_id.
      apply Z.eqb_neq. now apply H.
    - intros [_ H] p Hin. apply Z.eqb_neq. now apply H. }
  destruct (First env db (has_id i)) as [q|e] eqn:E.
  - apply First_Ok in E. destruct E as [Hin Hq]. apply has_id_true in Hq.
    simpl. repeat split; try discriminate.
    + intros H. now apply H in Hin.
    + intros H. now apply H in Hin.
    + intros p Hp Hi Hu. f_equal. f_equal. f_equal.
      apply (NoDup_map_In_eq ID (rows db)); auto. congruence.
  - destruct e; simpl.
    + repeat split; try (intros _; now apply Habs).
      intros p Hp Hi _. exfalso. apply Habs in Hp; auto.
    + exfalso. unfold First in E. rewrite Hf in E.
      destruct (lowest_id _); discriminate.
    + exfalso. unfold First in E. rewrite Hf in E.
      destruct (lowest_id _); discriminate.
Qed.

(** ** What every request preserves *)

Lemma NoDup_snoc {A} (l : list A) (x : A) :
  NoDup l -> ~ In x l -> NoDup (l ++ [x]).
Proof.
  induction l as [|a l IH]; simpl; intros Hnd Hx.
  - constructor; [intros []|constructor].
  - inversion Hnd as [|? ? Hnot Hnd']; subst. constructor.
    + intros Hin. apply in_app_or in Hin. destruct Hin as [Hin|[->|[]]]; auto.
    + apply IH; auto.
Qed.

Lemma existsb_false_inv {A} (f : A -> bool) (l : list A) :
  existsb f l = false -> forall x, In x l -> f x = false.
Proof.
  induction l as [|a l IH]; simpl; intros H x Hin; [destruct Hin|].
  apply orb_false_elim in H. destruct H as [Ha Hl].
  destruct Hin as [<-|Hin]; auto.
Qed.

Lemma not_in_map_external_id (l : list Person) (x : UUID) :
  existsb (has_external_id x) l = false -> ~ In x (map ExternalID l).
Proof.
  intros H Hin. apply in_map_iff in Hin. destruct Hin as (q & Hq & Hin).
  apply (existsb_false_inv _ _ H) in Hin.
  unfold has_external_id in Hin. apply N.eqb_neq in Hin. auto.
Qed.

Lemma not_in_map_id (l : list Person) (i : Z) :
  existsb (has_id i) l = false -> ~ In i (map ID l).
Proof.
  intros H Hin. apply in_map_iff in Hin. destruct Hin as (q & Hq & Hin).
  apply (existsb_false_inv _ _ H) in Hin.
  unfold has_id in Hin. apply Z.eqb_neq in Hin. auto.
Qed.

(** The INSERT is the last line of defence: whatever person it is handed,
    the rows it leaves have pairwise distinct external identifiers and
    pairwise distinct keys. *)
Lemma Create_preserves_unique env db p :
  (unique_external_ids db -> unique_external_ids (snd (Create env db p))) /\
  (unique_ids db -> unique_ids (snd (Create env db p))).
Proof.
  unfold Create, unique_external_ids, unique_ids.
  destruct (insert_fault env); [simpl; auto|].
  set (q := if ID _ =? 0 then set_ID _ _ else _).
  destruct (existsb (has_id (ID q)) (rows db)) eqn:Ei; [simpl; auto|].
  destruct (existsb (has_external_id (ExternalID q)) (rows db)) eqn:Ex;
    [simpl; auto|].
  simpl. rewrite !map_app. simpl. split; intros H.
  - apply NoDup_snoc; auto using not_in_map_external_id.
  - apply NoDup_snoc; auto using not_in_map_id.
Qed.

Lemma Create_sequence_ahead env db p :
  ID p = 0 -> sequence_ahead db -> sequence_ahead (snd (Create env db p)).
Proof.
  unfold Create, sequence_ahead. intros Hid Hseq.
  destruct (insert_fault env); [simpl; auto|].
  assert (ID (set_timestamps (now env) (BeforeCreate (fresh_uuid env) p)) = 0)
    as ->.
  { unfold BeforeCreate. destruct (N.eqb _ _); simpl; assumption. }
  simpl.
  assert (Forall (fun r => ID r < next_id db + 1) (rows db)) as Hold.
  { eapply Forall_impl; [|exact Hseq]. simpl. intros; lia. }
  destruct (_ || _); simpl; [assumption|].
  apply Forall_app. split; [assumption|].
  constructor; [simpl; lia|constructor].
Qed.

Lemma SavePerson_preserves env db b :
  (unique_external_ids db -> unique_external_ids (snd (SavePerson env db b))) /\
  (unique_ids db -> unique_ids (snd (SavePerson env db b))) /\
  (sequence_ahead db -> sequence_ahead (snd (SavePerson env db b))).
Proof.
  unfold SavePerson.
  destruct (ShouldBindJSON b) as [err|req]; [simpl; auto|].
  destruct (First_by_external_id env db (req_ExternalID req)) as [found|e0];
    [simpl; auto|].
  pose proof (Create_preserves_unique env db (FromSaveRequest req)) as [Hx Hi].
  pose proof (Create_sequence_ahead env db (FromSaveRequest req) eq_refl) as Hs.
  destruct (Create env db (FromSaveRequest req)) as [[q|e] db']; simpl in *;
    auto.
Qed.

Lemma GetPerson_store env db s : snd (GetPerson env db s) = db.
Proof.
  unfold GetPerson. destruct (strconv.ParseUint s 10 32) as [i [e|]];
    [reflexivity|].
  destruct (First_by_id env db i) as [q|[ | | ]]; reflexivity.
Qed.

Lemma ServeHTTP_preserves env db r :
  (unique_external_ids db -> unique_external_ids (snd (ServeHTTP env db r))) /\
  (unique_ids db -> unique_ids (snd (ServeHTTP env db r))) /\
  (sequence_ahead db -> sequence_ahead (snd (ServeHTTP env db r))).
Proof.
  destruct r as [|b|s]; simpl.
  - auto.
  - apply SavePerson_preserves.
  - rewrite GetPerson_store. auto.
Qed.

Lemma serve_all_reachable db0 l : reachable db0 (serve_all db0 l).
Proof.
  assert (forall db, reachable db0 db -> reachable db0 (serve_all db l)) as H.
  { induction l as [|[env r] l IH]; simpl; intros db Hr; [assumption|].
    apply IH. now constructor. }
  apply H. constructor.
Qed.

(** C7: starting from a store whose records have pairwise distinct external
    identifiers, every store reached by serving save, get and health
    requests one after the other, whatever each request meets, has pairwise
    distinct external identifiers. *)
Theorem reachable_unique_external_ids db0 db :
  unique_external_ids db0 -> reachable db0 db -> unique_external_ids db.
Proof.
  intros H0 Hr. induction Hr as [|db env r Hr IH]; [assumption|].
  now apply ServeHTTP_preserves.
Qed.

(** The keys behave as well along a run. *)
Lemma reachable_keys db0 db :
  unique_ids db0 -> sequence_ahead db0 -> reachable db0 db ->
  unique_ids db /\ sequence_ahead db.
Proof.
  intros Hi Hs Hr. induction Hr as [|db env r Hr [IHi IHs]]; [auto|].
  split; now apply ServeHTTP_preserves.
Qed.

(** ** Every outcome of the two handlers *)

(** [Create] on what [SavePerson] hands it, spelled out. *)
Lemma Create_from_request env db b req :
  ShouldBindJSON b = inr req ->
  Create env db (FromSaveRequest req) =
  if insert_fault env then (Err ErrStorage, db)
  else
    let q := mkPerson (next_id db) (req_ExternalID req) (req_Name req)
                      (req_Email req) (req_DateOfBirth req)
                      (now env) (now env) in
    if existsb (has_id (next_id db)) (rows db)
       || existsb (has_external_id (req_ExternalID req)) (rows db)
    then (Err ErrUniqueViolation, mkDB (rows db) (next_id db + 1))
    else (Ok q, mkDB (rows db ++ [q]) (next_id db + 1)).
Proof.
  intros Hb. unfold Create. rewrite (BeforeCreate_valid _ _ _ Hb).
  destruct (insert_fault env); reflexivity.
Qed.

(** [SavePerson] has four outcomes and no other: 400 for a body that does
    not bind, 409 only when a row with the external_id is there, 500 with
    the rows untouched, or 201 with exactly one row added, which carries
    the request's fields, the next key of the sequence and the clock's
    time in both timestamps, and which is what the body shows. *)
Theorem SavePerson_outcomes env db b :
  (exists err,
      ShouldBindJSON b = inl err /\
      SavePerson env db b =
      (JSON StatusBadRequest
         (ErrorJSON (mkErrorResponse ("Invalid request: " ++ Error_text err))),
       db)) \/
  (exists req,
      ShouldBindJSON b = inr req /\
      ((SavePerson env db b =
        (JSON StatusConflict
           (ErrorJSON
              (mkErrorResponse "Person with this external_id already exists")),
         db) /\
        exists p, In p (rows db) /\ ExternalID p = req_ExternalID req) \/
       (fst (SavePerson env db b) =
        JSON StatusInternalServerError
             (ErrorJSON (mkErrorResponse "Failed to save person")) /\
        rows (snd (SavePerson env db b)) = rows db) \/
       (let q := mkPerson (next_id db) (req_ExternalID req) (req_Name req)
                          (req_Email req) (req_DateOfBirth req)
                          (now env) (now env) in
        SavePerson env db b =
        (JSON StatusCreated (PersonJSON (ToResponse q)),
         mkDB (rows db ++ [q]) (next_id db + 1))))).
Proof.
  destruct (ShouldBindJSON b) as [err|req] eqn:Hb.
  - left. exists err. split; [reflexivity|]. now apply SavePerson_rejected.
  - right. exists req. split; [reflexivity|].
    unfold SavePerson. rewrite Hb.
    destruct (First_by_external_id env db (req_ExternalID req)) as [p|e] eqn:F.
    + left. split; [reflexivity|]. exists p.
      apply First_Ok in F. destruct F as [Hin Hx].
      split; [assumption|]. now apply has_external_id_true.
    + right. rewrite (Create_from_request env db b req Hb).
      destruct (insert_fault env); [left; simpl; auto|].
      cbv zeta.
      destruct (existsb _ _ || existsb _ _); [left; simpl; auto|].
      right. reflexivity.
Qed.

(** [GetPerson] never writes, and has four outcomes and no other: 400 for a
    parameter [ParseUint] refuses, 404 only when no row has the key, 500
    only when the lookup failed, or 200 with the mapping of a row that is
    in the table under the key the parameter spells; that key fits 32
    bits. *)
Theorem GetPerson_outcomes env db s :
  snd (GetPerson env db s) = db /\
  ((parses_as_uint32 s = false /\
    fst (GetPerson env db s) =
    JSON StatusBadRequest (ErrorJSON (mkErrorResponse "Invalid ID format"))) \/
   (exists i,
       decimal s = Some i /\ 0 <= i <= maxUint32 /\
       ((fst (GetPerson env db s) =
         JSON StatusNotFound (ErrorJSON (mkErrorResponse "Person not found")) /\
         lookup_fault env = false /\
         forall p, In p (rows db) -> ID p <> i) \/
        (fst (GetPerson env db s) =
         JSON StatusInternalServerError
              (ErrorJSON (mkErrorResponse "Failed to retrieve person")) /\
         lookup_fault env = true) \/
        (exists p,
            fst (GetPerson env db s) = JSON StatusOK (PersonJSON (ToResponse p)) /\
            lookup_fault env = false /\ In p (rows db) /\ ID p = i)))).
Proof.
  split; [apply GetPerson_store|].
  destruct (parses_as_uint32 s) eqn:P.
  - right. destruct (ParseUint_accepts s P) as (i & D & Hi & H).
    exists i. split; [assumption|]. split; [assumption|].
    rewrite (GetPerson_parsed env db s i H). unfold First_by_id.
    destruct (First env db (has_id i)) as [q|e] eqn:F.
    + right. right. exists q.
      assert (lookup_fault env = false) as L.
      { unfold First in F. destruct (lookup_fault env); [discriminate|auto]. }
      apply First_Ok in F. destruct F as [Hin Hq].
      apply has_id_true in Hq. simpl. repeat split; auto.
    + destruct e.
      * left. apply First_NotFound in F. destruct F as [L Habs].
        simpl. repeat split; auto.
        intros p Hin. apply Z.eqb_neq. now apply Habs.
      * exfalso. unfold First in F.
        destruct (lookup_fault env); [discriminate|].
        destruct (lowest_id _); discriminate.
      * right. left. simpl. split; [reflexivity|].
        unfold First in F. destruct (lookup_fault env); [reflexivity|].
        destruct (lowest_id _); discriminate.
  - left. split; [reflexivity|].
    destruct (ParseUint_refuses s P) as (r & e & H).
    now rewrite (GetPerson_unparsed env db s r e H).
Qed.

(** ** Storage failures *)

(** A lookup that fails on I/O is answered 500 for every parameter that
    parses, with the store left alone. *)
Theorem GetPerson_lookup_fault_500 env db s :
  parses_as_uint32 s = true ->
  lookup_fault env = true ->
  GetPerson env db s =
  (JSON StatusInternalServerError
     (ErrorJSON (mkErrorResponse "Failed to retrieve person")), db).
Proof.
  intros P L. destruct (ParseUint_accepts s P) as (i & _ & _ & H).
  rewrite (GetPerson_parsed env db s i H). unfold First_by_id.
  now rewrite (First_fault env db _ L).
Qed.

(** When the INSERT fails on I/O nothing is stored and nothing is reported
    as created, whatever the body and whatever the lookup did. *)
Theorem SavePerson_insert_fault_stores_nothing env db b :
  insert_fault env = true ->
  snd (SavePerson env db b) = db /\
  status (fst (SavePerson env db b)) <> StatusCreated /\
  exists m, error_message (fst (SavePerson env db b)) = Some m.
Proof.
  intros Hf. unfold SavePerson.
  destruct (ShouldBindJSON b) as [err|req] eqn:Hb.
  - simpl. split; [reflexivity|]. split; [now unfold StatusBadRequest|eexists; reflexivity].
  - destruct (First_by_external_id env db (req_ExternalID req)).
    + simpl. split; [reflexivity|]. split; [now unfold StatusConflict|eexists; reflexivity].
    + rewrite (Create_from_request env db b req Hb), Hf. simpl.
      split; [reflexivity|].
      split; [now unfold StatusInternalServerError|eexists; reflexivity].
Qed.

(** ** Saving, then getting or saving again *)

Lemma filter_none {A} (f : A -> bool) (l : list A) :
  (forall x, In x l -> f x = false) -> filter f l = [].
Proof.
  induction l as [|a l IH]; simpl; intros H; [reflexivity|].
  rewrite (H a) by auto. apply IH. auto.
Qed.

(** What [Create] reports as stored is the last row, and the only one with
    its key and the only one with its external_id. *)
Lemma Create_Ok env db p q db' :
  Create env db p = (Ok q, db') ->
  rows db' = (rows db ++ [q])%list /\
  (forall r, In r (rows db) -> has_id (ID q) r = false) /\
  (forall r, In r (rows db) -> has_external_id (ExternalID q) r = false).
Proof.
  unfold Create. destruct (insert_fault env); [discriminate|].
  set (q0 := if ID _ =? 0 then set_ID _ _ else _).
  destruct (existsb (has_id (ID q0)) (rows db)) eqn:Ei; [discriminate|].
  destruct (existsb (has_external_id (ExternalID q0)) (rows db)) eqn:Ex;
    [discriminate|].
  simpl. intros H. inversion H; subst. simpl.
  split; [reflexivity|]. split; now apply existsb_false_inv.
Qed.

Lemma First_last env db0 db q cond :
  lookup_fault env = false ->
  rows db = (rows db0 ++ [q])%list ->
  (forall r, In r (rows db0) -> cond r = false) ->
  cond q = true ->
  First env db cond = Ok q.
Proof.
  intros L Hrows Hnone Hq. unfold First. rewrite L, Hrows, filter_app.
  rewrite (filter_none _ _ Hnone). simpl. now rewrite Hq.
Qed.


(** After [Create] stored a row, a valid save request with the same
    external_id is answered 409 and changes nothing, as long as the lookup
    goes through. *)
Theorem Create_then_SavePerson_conflict env env' db p q db' b req :
  Create env db p = (Ok q, db') ->
  ShouldBindJSON b = inr req ->
  req_ExternalID req = ExternalID q ->
  lookup_fault env' = false ->
  SavePerson env' db' b =
  (JSON StatusConflict
     (ErrorJSON (mkErrorResponse "Person with this external_id already exists")),
   db').
Proof.
  intros Hc Hb Hx L. apply Create_Ok in Hc. destruct Hc as (Hrows & _ & Hext).
  unfold SavePerson. rewrite Hb. unfold First_by_external_id. rewrite Hx.
  rewrite (First_last env' db db' q _ L Hrows Hext); [reflexivity|].
  now apply has_external_id_true.
Qed.

(** A 201 means [Create] stored the row built from the request. *)
Lemma SavePerson_created_inv env db b req :
  ShouldBindJSON b = inr req ->
  status (fst (SavePerson env db b)) = StatusCreated ->
  let q := mkPerson (next_id db) (req_ExternalID req) (req_Name req)
                    (req_Email req) (req_DateOfBirth req)
                    (now env) (now env) in
  Create env db (FromSaveRequest req) = (Ok q, snd (SavePerson env db b)).
Proof.
  intros Hb. unfold SavePerson. rewrite Hb.
  destruct (First_by_external_id env db (req_ExternalID req));
    [simpl; discriminate|].
  rewrite (Create_from_request env db b req Hb).
  destruct (insert_fault env); [simpl; discriminate|].
  cbv zeta. destruct (existsb _ _ || existsb _ _); [simpl; discriminate|].
  reflexivity.
Qed.


(** Saving twice: once a save was answered 201, any valid save request with
    the same external_id is answered 409 and leaves the store as the first
    save left it, with exactly one record under that external_id, as long
    as the second lookup goes through. *)
Theorem SavePerson_twice_conflict env env' db b req b' req' :
  ShouldBindJSON b = inr req ->
  status (fst (SavePerson env db b)) = StatusCreated ->
  ShouldBindJSON b' = inr req' ->
  req_ExternalID req' = req_ExternalID req ->
  lookup_fault env' = false ->
  SavePerson env' (snd (SavePerson env db b)) b' =
  (JSON StatusConflict
     (ErrorJSON (mkErrorResponse "Person with this external_id already exists")),
   snd (SavePerson env db b)) /\
  count_external_id (req_ExternalID req) (snd (SavePerson env db b)) = 1%nat.
Proof.
  intros Hb H201 Hb' Hx L.
  pose proof (SavePerson_created_inv env db b req Hb H201) as Hc.
  cbv zeta in Hc. apply Create_Ok in Hc. destruct Hc as (Hrows & _ & Hext).
  simpl in Hext. split.
  - unfold SavePerson at 1. rewrite Hb'. unfold First_by_external_id.
    rewrite Hx.
    erewrite (First_last env' db _ _ (has_external_id (req_ExternalID req))
                         L Hrows Hext); [reflexivity|].
    now apply has_external_id_true.
  - unfold count_external_id. rewrite Hrows, filter_app.
    rewrite (filter_none _ _ Hext). simpl.
    unfold has_external_id. simpl. now rewrite N.eqb_refl.
Qed.

(** ** Along a run *)

Lemma Create_appends env db p :
  exists added,
    rows (snd (Create env db p)) = (rows db ++ added)%list /\
    next_id db <= next_id (snd (Create env db p)).
Proof.
  unfold Create. destruct (insert_fault env).
  - exists []. simpl. rewrite app_nil_r. split; [reflexivity|lia].
  - set (q := if ID _ =? 0 then set_ID _ _ else _).
    set (seq := if ID _ =? 0 then _ else _).
    assert (next_id db <= seq) as Hseq
      by (unfold seq; destruct (ID _ =? 0); lia).
    destruct (existsb _ _ || existsb _ _); simpl.
    + exists []. rewrite app_nil_r. auto.
    + exists [q]. auto.
Qed.

Lemma ServeHTTP_appends env db r :
  exists added,
    rows (snd (ServeHTTP env db r)) = (rows db ++ added)%list /\
    next_id db <= next_id (snd (ServeHTTP env db r)).
Proof.
  assert (exists added, rows db = (rows db ++ added)%list /\
                        next_id db <= next_id db) as Hsame
    by (exists []; rewrite app_nil_r; split; [reflexivity|lia]).
  destruct r as [|b|s]; simpl.
  - assumption.
  - unfold SavePerson. destruct (ShouldBindJSON b) as [err|req]; [assumption|].
    destruct (First_by_external_id env db (req_ExternalID req)) as [found|e0];
      [assumption|].
    pose proof (Create_appends env db (FromSaveRequest req)) as H.
    destruct (Create env db (FromSaveRequest req)) as [[q|e] db']; exact H.
  - now rewrite GetPerson_store.
Qed.

(** The table only grows: every store reached by a run starts with the
    rows it started from, unchanged and in place, and its sequence never
    runs backwards. *)
Theorem reachable_append_only db0 db :
  reachable db0 db ->
  exists added,
    rows db = (rows db0 ++ added)%list /\ next_id db0 <= next_id db.
Proof.
  intros Hr. induction Hr as [|db env r Hr (added & Hrows & Hseq)].
  - exists []. rewrite app_nil_r. split; [reflexivity|lia].
  - destruct (ServeHTTP_appends env db r) as (more & Hrows' & Hseq').
    exists (added ++ more)%list. rewrite Hrows', Hrows, app_assoc.
    split; [reflexivity|lia].
Qed.

Lemma StronglySorted_snoc (l : list Z) (x : Z) :
  StronglySorted Z.lt l -> Forall (fun y => y < x) l ->
  StronglySorted Z.lt (l ++ [x]).
Proof.
  induction l as [|a l IH]; simpl; intros Hs Hx.
  - constructor; constructor.
  - inversion Hs as [|? ? Hs' Ha]; subst.
    inversion Hx as [|? ? Hax Hx']; subst.
    constructor; [now apply IH|].
    apply Forall_app. split; [assumption|]. constructor; [assumption|constructor].
Qed.

Lemma SavePerson_ids_increasing env db b :
  ids_increasing db -> sequence_ahead db ->
  ids_increasing (snd (SavePerson env db b)).
Proof.
  unfold ids_increasing, sequence_ahead. intros Hi Hs. unfold SavePerson.
  destruct (ShouldBindJSON b) as [err|req] eqn:Hb; [assumption|].
  destruct (First_by_external_id env db (req_ExternalID req)); [assumption|].
  rewrite (Create_from_request env db b req Hb).
  destruct (insert_fault env); [assumption|].
  cbv zeta. destruct (existsb _ _ || existsb _ _); [assumption|].
  simpl. rewrite map_app. simpl. apply StronglySorted_snoc; [assumption|].
  now apply Forall_map.
Qed.

(** Keys are handed out in increasing order: from a table whose keys grow
    along its rows and lie below the sequence, every store reached by a run
    is such a table again, so a later record always has a larger key. *)
Theorem reachable_ids_increasing db0 db :
  ids_increasing db0 -> sequence_ahead db0 -> reachable db0 db ->
  ids_increasing db /\ sequence_ahead db.
Proof.
  intros Hi Hs Hr. induction Hr as [|db env r Hr [IHi IHs]]; [auto|].
  split; [|now apply ServeHTTP_preserves].
  destruct r as [|b|s]; simpl.
  - assumption.
  - now apply SavePerson_ids_increasing.
  - now rewrite GetPerson_store.
Qed.

(** A run without a save leaves the store exactly as it was, whatever the
    parameters and whatever fails. *)
Theorem serve_all_reads_only db l :
  forallb (fun er => is_read (snd er)) l = true ->
  serve_all db l = db.
Proof.
  induction l as [|[env r] l IH]; simpl; intros H; [reflexivity|].
  apply andb_prop in H. destruct H as [Hr Hl].
  destruct r as [|b|s]; simpl in *; [now apply IH|discriminate|].
  rewrite GetPerson_store. now apply IH.
Qed.

(** ** Edges of the two inputs *)



(** The bodies [ShouldBindJSON] accepts are exactly the objects whose four
    keys hold strings: an external_id the UUID parser reads as a non-zero
    UUID, a non-empty name, a non-empty email the validator takes, and a
    date_of_birth the time parser reads as a non-zero time; the request is
    made of what they spell. *)
Theorem ShouldBindJSON_accepts_iff b req :
  ShouldBindJSON b = inr req <->
  exists su st,
    b = ObjectJSON (mkJSONObject (Some (JString su))
                                 (Some (JString (req_Name req)))
                                 (Some (JString (req_Email req)))
                                 (Some (JString st))) /\
    uuid_Parse su = Some (req_ExternalID req) /\
    req_ExternalID req <> Nil /\
    req_Name req <> EmptyString /\
    req_Email req <> EmptyString /\
    is_email (req_Email req) = true /\
    time_Parse st = Some (req_DateOfBirth req) /\
    Time_isZero (req_DateOfBirth req) = false.
Proof.
  split.
  - intros Hb. destruct b as [|o].
    { unfold ShouldBindJSON in Hb. simpl in Hb. discriminate. }
    destruct (ShouldBindJSON_fields _ _ Hb) as (Hu & Hn & He & Ht).
    apply ShouldBindJSON_valid, validate_nil in Hb.
    destruct Hb as (Vu & Vn & Ve & Vm & Vt).
    destruct o as [ju jn je jt]. simpl in *.
    destruct ju as [[|su|]|]; simpl in Hu;
      try discriminate; try (inversion Hu as [Hx]; rewrite <- Hx in Vu;
                             discriminate).
    destruct (uuid_Parse su) as [u|] eqn:Pu; [|discriminate].
    inversion Hu as [Hx]. subst u.
    destruct jn as [[|sn|]|]; simpl in Hn;
      try discriminate; try (inversion Hn as [Hy]; rewrite <- Hy in Vn;
                             discriminate).
    inversion Hn as [Hy].
    destruct je as [[|se|]|]; simpl in He;
      try discriminate; try (inversion He as [Hz]; rewrite <- Hz in Ve;
                             discriminate).
    inversion He as [Hz].
    destruct jt as [[|st|]|]; simpl in Ht;
      try discriminate; try (inversion Ht as [Hw]; rewrite <- Hw in Vt;
                             discriminate).
    destruct (time_Parse st) as [t|] eqn:Pt; [|discriminate].
    inversion Ht as [Hw]. subst t.
    exists su, st. repeat split; auto.
    + intros E. rewrite E in Vu. discriminate.
    + intros E. rewrite E in Vn. discriminate.
    + intros E. rewrite E in Ve. discriminate.
  - intros (su & st & -> & Pu & Nu & Nn & Ne & Vm & Pt & Vt).
    destruct req as [u n e t]. simpl in *.
    unfold ShouldBindJSON, decodeJSON. simpl. rewrite Pu, Pt.
    unfold validate. simpl. rewrite Vm, Vt.
    destruct (UUID_isZero u) eqn:Zu;
      [apply N.eqb_eq in Zu; contradiction|].
    destruct n; [contradiction|]. destruct e; [contradiction|].
    reflexivity.
Qed.

(** A key that is there but holds nothing is refused like a missing one:
    null under any of the four keys, an empty name, an empty email, or a
    date_of_birth that parses to the zero time is answered 400 and changes
    nothing. *)
Theorem SavePerson_zero_values_rejected env db o :
  j_external_id o = Some JNull \/ j_name o = Some JNull \/
  j_email o = Some JNull \/ j_date_of_birth o = Some JNull \/
  j_name o = Some (JString EmptyString) \/
  j_email o = Some (JString EmptyString) \/
  (exists s t, j_date_of_birth o = Some (JString s) /\
               time_Parse s = Some t /\ Time_isZero t = true) ->
  status (fst (SavePerson env db (ObjectJSON o))) = StatusBadRequest /\
  snd (SavePerson env db (ObjectJSON o)) = db.
Proof.
  intros Hbad.
  destruct (ShouldBindJSON (ObjectJSON o)) as [err|req] eqn:E.
  - rewrite (SavePerson_rejected env db _ err E). auto.
  - exfalso.
    destruct (ShouldBindJSON_fields _ _ E) as (Hu & Hn & He & Ht).
    apply ShouldBindJSON_valid, validate_nil in E.
    destruct E as (Vu & Vn & Ve & Vm & Vt).
    destruct Hbad as [H|[H|[H|[H|[H|[H|(s & t & H & Pt & Zt)]]]]]];
      rewrite H in *; simpl in *.
    + inversion Hu as [Hx]. rewrite <- Hx in Vu. discriminate.
    + inversion Hn as [Hx]. rewrite <- Hx in Vn. discriminate.
    + inversion He as [Hx]. rewrite <- Hx in Ve. discriminate.
    + inversion Ht as [Hx]. rewrite <- Hx in Vt. discriminate.
    + inversion Hn as [Hx]. rewrite <- Hx in Vn. discriminate.
    + inversion He as [Hx]. rewrite <- Hx in Ve. discriminate.
    + rewrite Pt in Ht. inversion Ht as [Hx]. rewrite <- Hx in Vt. congruence.
Qed.

(** ** The hook and what gets stored *)


Lemma SavePerson_no_nil env db b :
  no_nil_external_id db -> no_nil_external_id (snd (SavePerson env db b)).
Proof.
  unfold no_nil_external_id. intros H. unfold SavePerson.
  destruct (ShouldBindJSON b) as [err|req] eqn:Hb; [assumption|].
  destruct (First_by_external_id env db (req_ExternalID req)); [assumption|].
  rewrite (Create_from_request env db b req Hb).
  destruct (insert_fault env); [assumption|].
  cbv zeta. destruct (existsb _ _ || existsb _ _); [assumption|].
  simpl. apply Forall_app. split; [assumption|].
  constructor; [|constructor]. simpl.
  apply N.eqb_neq. now apply (valid_not_Nil b).
Qed.

(** Through the three routes no record is ever stored under [uuid.Nil],
    whatever [uuid.New] would return. *)
Theorem reachable_no_nil_external_id db0 db :
  no_nil_external_id db0 -> reachable db0 db -> no_nil_external_id db.
Proof.
  intros H0 Hr. induction Hr as [|db env r Hr IH]; [assumption|].
  destruct r as [|b|s]; simpl.
  - assumption.
  - now apply SavePerson_no_nil.
  - now rewrite GetPerson_store.
Qed.

(** ** Cleaning up between tests *)

Lemma prefix_Contains (pat s : string) :
  String.prefix pat s = true -> Contains s pat = true.
Proof. intros H. destruct s; cbn [Contains]; now rewrite H. Qed.

Lemma is_test_data_infix (p : Person) :
  is_test_data p = Contains (Name p) "Test".
Proof.
  unfold is_test_data, LIKE_Test_prefix, LIKE_Test_infix.
  destruct (String.prefix "Test" (Name p)) eqn:E; [|reflexivity].
  simpl. symmetry. now apply prefix_Contains.
Qed.

Lemma filter_filter {A} (f : A -> bool) (l : list A) :
  filter f (filter f l) = filter f l.
Proof.
  induction l as [|a l IH]; simpl; [reflexivity|].
  destruct (f a) eqn:E; simpl; [rewrite E, IH|]; auto.
Qed.

(** A cleanup that goes through removes exactly the rows whose name has
    "Test" somewhere in it (the pattern that asks for it at the start adds
    nothing), keeps every other row in place, leaves the sequence where it
    was, and has nothing left to do when run again; one that fails, or
    finds no handle, changes nothing. *)
Theorem cleanTestData_removes_named_Test d :
  cleanTestData false (Some d) =
    Some (mkDB (filter (fun p => negb (Contains (Name p) "Test")) (rows d))
               (next_id d)) /\
  (forall d', cleanTestData false (Some d) = Some d' ->
              cleanTestData false (Some d') = Some d') /\
  cleanTestData true (Some d) = Some d /\
  (forall fault, cleanTestData fault None = None).
Proof.
  assert (cleanTestData false (Some d) =
          Some (mkDB (filter (fun p => negb (Contains (Name p) "Test")) (rows d))
                     (next_id d))) as H.
  { simpl. unfold Delete_where. do 2 f_equal.
    apply filter_ext. intros p. now rewrite is_test_data_infix. }
  split; [exact H|]. split; [|split; [reflexivity|reflexivity]].
  intros d' Hd. simpl in Hd. inversion Hd; subst d'. simpl.
  unfold Delete_where. simpl. now rewrite filter_filter.
Qed.

Lemma NoDup_map_filter {A B} (f : A -> B) (g : A -> bool) (l : list A) :
  NoDup (map f l) -> NoDup (map f (filter g l)).
Proof.
  induction l as [|a l IH]; simpl; intros H; [assumption|].
  inversion H as [|? ? Hnot Hnd]; subst.
  destruct (g a); simpl; [|auto].
  constructor; [|auto]. intros Hin. apply Hnot.
  apply in_map_iff in Hin. destruct Hin as (x & Hx & Hin).
  apply filter_In in Hin. rewrite <- Hx. apply in_map. apply Hin.
Qed.

Lemma Forall_filter {A} (P : A -> Prop) (g : A -> bool) (l : list A) :
  Forall P l -> Forall P (filter g l).
Proof.
  intros H. apply Forall_forall. intros x Hin. apply filter_In in Hin.
  rewrite Forall_forall in H. apply H, Hin.
Qed.

Lemma StronglySorted_map_filter {A} (f : A -> Z) (g : A -> bool) (l : list A) :
  StronglySorted Z.lt (map f l) -> StronglySorted Z.lt (map f (filter g l)).
Proof.
  induction l as [|a l IH]; simpl; intros H; [assumption|].
  inversion H as [|? ? Hs Ha]; subst.
  destruct (g a); simpl; [|auto].
  constructor; [auto|].
  rewrite Forall_map in Ha |- *. now apply Forall_filter.
Qed.

(** Cleaning up never breaks the table: it adds no row, and distinct
    external identifiers, distinct keys, keys below the sequence and keys
    growing along the rows all survive it; when it goes through, no name
    with "Test" in it is left. *)
Theorem cleanTestData_keeps_table_sound fault d d' :
  cleanTestData fault (Some d) = Some d' ->
  (forall p, In p (rows d') -> In p (rows d)) /\
  (unique_external_ids d -> unique_external_ids d') /\
  (unique_ids d -> unique_ids d') /\
  (sequence_ahead d -> sequence_ahead d') /\
  (ids_increasing d -> ids_increasing d') /\
  (fault = false ->
   forall p, In p (rows d') -> Contains (Name p) "Test" = false).
Proof.
  simpl. intros H. inversion H; subst d'. clear H.
  unfold Delete_where. destruct fault.
  - repeat split; auto. discriminate.
  - unfold unique_external_ids, unique_ids, sequence_ahead, ids_increasing.
    simpl. repeat split.
    + intros p Hin. apply filter_In in Hin. apply Hin.
    + apply NoDup_map_filter.
    + apply NoDup_map_filter.
    + apply Forall_filter.
    + apply StronglySorted_map_filter.
    + intros _ p Hin. apply filter_In in Hin. destruct Hin as [_ Hn].
      rewrite is_test_data_infix in Hn. now apply negb_true_iff in Hn.
Qed.

(** ** Two different people *)

(** Only the external_id is checked for duplicates: two valid requests with
    different external_ids, neither in the table, are both answered 201
    when the INSERTs go through, also with the same name and email, and
    the second record gets the key after the first. *)
Theorem SavePerson_two_distinct env1 env2 db b1 req1 b2 req2 :
  ShouldBindJSON b1 = inr req1 ->
  ShouldBindJSON b2 = inr req2 ->
  req_ExternalID req1 <> req_ExternalID req2 ->
  (forall p, In p (rows db) -> ExternalID p <> req_ExternalID req1) ->
  (forall p, In p (rows db) -> ExternalID p <> req_ExternalID req2) ->
  insert_fault env1 = false ->
  insert_fault env2 = false ->
  sequence_ahead db ->
  let db1 := snd (SavePerson env1 db b1) in
  let db2 := snd (SavePerson env2 db1 b2) in
  status (fst (SavePerson env1 db b1)) = StatusCreated /\
  status (fst (SavePerson env2 db1 b2)) = StatusCreated /\
  map ID (rows db2) = (map ID (rows db) ++ [next_id db; next_id db + 1])%list /\
  map ExternalID (rows db2) =
    (map ExternalID (rows db) ++ [req_ExternalID req1; req_ExternalID req2])%list.
Proof.
  intros Hb1 Hb2 Hne Habs1 Habs2 Hf1 Hf2 Hseq db1 db2.
  assert (SavePerson env1 db b1 =
          (JSON StatusCreated
             (PersonJSON
                (ToResponse
                   (mkPerson (next_id db) (req_ExternalID req1) (req_Name req1)
                             (req_Email req1) (req_DateOfBirth req1)
                             (now env1) (now env1)))),
           mkDB (rows db ++
                 [mkPerson (next_id db) (req_ExternalID req1) (req_Name req1)
                           (req_Email req1) (req_DateOfBirth req1)
                           (now env1) (now env1)])
                (next_id db + 1))) as H1.
  { unfold SavePerson. rewrite Hb1.
    destruct (absent_not_found env1 db _ Habs1) as [e ->].
    now rewrite (Create_fresh env1 db b1 req1 Hb1 Habs1 Hf1 Hseq). }
  assert (sequence_ahead db1) as Hseq1
    by (unfold db1; now apply SavePerson_preserves).
  assert (forall p, In p (rows db1) -> ExternalID p <> req_ExternalID req2)
    as Habs2'.
  { unfold db1. rewrite H1. simpl. intros p Hin.
    apply in_app_or in Hin. destruct Hin as [Hin|[<-|[]]]; [auto|].
    simpl. assumption. }
  assert (SavePerson env2 db1 b2 =
          (JSON StatusCreated
             (PersonJSON
                (ToResponse
                   (mkPerson (next_id db1) (req_ExternalID req2)
                             (req_Name req2) (req_Email req2)
                             (req_DateOfBirth req2) (now env2) (now env2)))),
           mkDB (rows db1 ++
                 [mkPerson (next_id db1) (req_ExternalID req2) (req_Name req2)
                           (req_Email req2) (req_DateOfBirth req2)
                           (now env2) (now env2)])
                (next_id db1 + 1))) as H2.
  { unfold SavePerson at 1. rewrite Hb2.
    destruct (absent_not_found env2 db1 _ Habs2') as [e ->].
    now rewrite (Create_fresh env2 db1 b2 req2 Hb2 Habs2' Hf2 Hseq1). }
  unfold db2. rewrite H2. simpl. unfold db1. rewrite H1. simpl.
  rewrite !map_app. simpl. rewrite <- !app_assoc. simpl.
  repeat split.
Qed.

End Handlers.

(** ** The handlers on the sample inputs *)

Abbreviation Sample_SavePerson :=
  (SavePerson Sample.uuid_Parse Sample.time_Parse Sample.is_email
              Sample.Error_text).

Abbreviation Sample_ServeHTTP :=
  (ServeHTTP Sample.uuid_Parse Sample.time_Parse Sample.is_email
             Sample.Error_text).

(** C2, where the code departs from it: the lookup of a valid save request
    fails on I/O, the handler carries on to [Create], the INSERT goes
    through, and the answer is 201 with the row stored. *)
Theorem SavePerson_lookup_fault_answers_201 :
  Sample.uuid_Parse "550e8400-e29b-41d4-a716-446655440000"
    = Some Sample.john_id /\
  First_by_external_id Sample.lookup_down Sample.empty_db Sample.john_id
    = Err ErrStorage /\
  Sample_SavePerson Sample.lookup_down Sample.empty_db Sample.john_body =
  (JSON StatusCreated (PersonJSON (ToResponse Sample.john)),
   mkDB [Sample.john] 2).
Proof. repeat split. Qed.

(** C3 as written fails at "0": it is not a positive integer, and it is
    not answered 400 but looked up and answered 404. *)
Lemma GetPerson_zero_is_looked_up :
  ~ (fst (GetPerson Sample.calm Sample.john_db "0") =
       JSON StatusBadRequest (ErrorJSON (mkErrorResponse "Invalid ID format"))
     <-> parses_as_positive_integer "0" = false).
Proof.
  intros [_ H]. specialize (H eq_refl). vm_compute in H. discriminate.
Qed.

(** The other side of it: 4294967296 is a positive integer and is answered
    400 all the same. *)
Lemma GetPerson_above_uint32_is_rejected :
  parses_as_positive_integer "4294967296" = true /\
  fst (GetPerson Sample.calm Sample.john_db "4294967296") =
    JSON StatusBadRequest (ErrorJSON (mkErrorResponse "Invalid ID format")).
Proof. split; reflexivity. Qed.

(** ** The theorems on the sample inputs *)

Lemma SavePerson_duplicate_conflict_witness :
  let (resp, db') :=
    Sample_SavePerson Sample.calm Sample.john_db Sample.john_body in
  status resp = StatusConflict /\
  (exists m, error_message resp = Some m /\
             Contains m "already exists" = true) /\
  db' = Sample.john_db /\
  (unique_external_ids Sample.john_db ->
   count_external_id Sample.john_id db' = 1%nat).
Proof.
  exact (SavePerson_duplicate_conflict
           Sample.uuid_Parse Sample.time_Parse Sample.is_email
           Sample.Error_text Sample.calm Sample.john_db Sample.john_body
           Sample.john_req Sample.john
           eq_refl (or_introl eq_refl) eq_refl eq_refl).
Defined.

Lemma SavePerson_created_echoes_request_witness :
  status (fst (Sample_SavePerson Sample.calm Sample.empty_db
                                   Sample.john_body)) = StatusCreated /\
  payload (fst (Sample_SavePerson Sample.calm Sample.empty_db
                                    Sample.john_body)) =
    PersonJSON (mkPersonResponse Sample.john_id "John Doe"
                                 "john.doe@example.com" Sample.noon_1990) /\
  ToResponse (FromSaveRequest Sample.john_req) =
    mkPersonResponse Sample.john_id "John Doe" "john.doe@example.com"
                     Sample.noon_1990.
Proof.
  apply (SavePerson_created_echoes_request
           Sample.uuid_Parse Sample.time_Parse Sample.is_email
           Sample.Error_text Sample.calm Sample.empty_db Sample.john_body
           Sample.john_req).
  - reflexivity.
  - simpl. intros p [].
  - reflexivity.
  - constructor.
Defined.

Lemma SavePerson_invalid_payload_400_witness :
  exists msg,
    Sample_SavePerson Sample.calm Sample.john_db
      (ObjectJSON
         (mkJSONObject (Some (JString "550e8400-e29b-41d4-a716-446655440000"))
                       None
                       (Some (JString "test@example.com"))
                       (Some (JString "1990-01-01T12:00:00Z")))) =
    (JSON StatusBadRequest
       (ErrorJSON (mkErrorResponse ("Invalid request: " ++ msg))),
     Sample.john_db).
Proof.
  apply (SavePerson_invalid_payload_400
           Sample.uuid_Parse Sample.time_Parse Sample.is_email
           Sample.Error_text).
  left. right. left. reflexivity.
Defined.

(** The invalid email of the tests is turned away the same way. *)
Lemma SavePerson_invalid_email_400 :
  exists msg,
    Sample_SavePerson Sample.calm Sample.empty_db
      (ObjectJSON
         (mkJSONObject (Some (JString "550e8400-e29b-41d4-a716-446655440000"))
                       (Some (JString "Test User"))
                       (Some (JString "invalid-email"))
                       (Some (JString "1990-01-01T12:00:00Z")))) =
    (JSON StatusBadRequest
       (ErrorJSON (mkErrorResponse ("Invalid request: " ++ msg))),
     Sample.empty_db).
Proof. eexists. reflexivity. Qed.

Lemma GetPerson_not_found_iff_absent_witness :
  (fst (GetPerson Sample.calm Sample.john_db "999999") =
     JSON StatusNotFound (ErrorJSON (mkErrorResponse "Person not found")) <->
   forall p, In p (rows Sample.john_db) -> ID p <> 999999) /\
  (status (fst (GetPerson Sample.calm Sample.john_db "999999"))
     = StatusNotFound <->
   forall p, In p (rows Sample.john_db) -> ID p <> 999999) /\
  (forall p, In p (rows Sample.john_db) -> ID p = 999999 ->
             unique_ids Sample.john_db ->
             fst (GetPerson Sample.calm Sample.john_db "999999") =
             JSON StatusOK (PersonJSON (ToResponse p))) /\
  snd (GetPerson Sample.calm Sample.john_db "999999") = Sample.john_db.
Proof.
  apply (GetPerson_not_found_iff_absent
           Sample.calm Sample.john_db "999999" 999999); reflexivity.
Defined.

Lemma reachable_unique_external_ids_witness :
  unique_external_ids
    (snd (Sample_ServeHTTP Sample.lookup_down
            (snd (Sample_ServeHTTP Sample.calm Sample.empty_db
                    (POST_save Sample.john_body)))
            (POST_save Sample.john_body))).
Proof.
  apply (reachable_unique_external_ids
           Sample.uuid_Parse Sample.time_Parse Sample.is_email
           Sample.Error_text Sample.empty_db).
  - constructor.
  - apply reach_step, reach_step, reach_start.
Defined.

Lemma SavePerson_nil_external_id_rejected_witness :
  status
    (fst (Sample_SavePerson Sample.calm Sample.empty_db
            (ObjectJSON
               (mkJSONObject
                  (Some (JString "00000000-0000-0000-0000-000000000000"))
                  (Some (JString "John Doe"))
                  (Some (JString "john.doe@example.com"))
                  (Some (JString "1990-01-01T12:00:00Z"))))))
  = StatusBadRequest.
Proof.
  apply (SavePerson_nil_external_id_rejected
           Sample.uuid_Parse Sample.time_Parse Sample.is_email
           Sample.Error_text Sample.calm Sample.empty_db
           (mkJSONObject
              (Some (JString "00000000-0000-0000-0000-000000000000"))
              (Some (JString "John Doe"))
              (Some (JString "john.doe@example.com"))
              (Some (JString "1990-01-01T12:00:00Z")))).
  reflexivity.
Defined.

(** ** The further theorems on the sample inputs *)

Lemma GetPerson_lookup_fault_500_witness :
  GetPerson Sample.lookup_down Sample.john_db "1" =
  (JSON StatusInternalServerError
     (ErrorJSON (mkErrorResponse "Failed to retrieve person")), Sample.john_db).
Proof.
  apply (GetPerson_lookup_fault_500 Sample.lookup_down Sample.john_db "1");
    reflexivity.
Defined.

Lemma SavePerson_insert_fault_stores_nothing_witness :
  snd (Sample_SavePerson Sample.insert_down Sample.empty_db Sample.john_body)
    = Sample.empty_db /\
  status (fst (Sample_SavePerson Sample.insert_down Sample.empty_db
                                 Sample.john_body)) <> StatusCreated /\
  exists m,
    error_message (fst (Sample_SavePerson Sample.insert_down Sample.empty_db
                                          Sample.john_body)) = Some m.
Proof.
  exact (SavePerson_insert_fault_stores_nothing
           Sample.uuid_Parse Sample.time_Parse Sample.is_email
           Sample.Error_text Sample.insert_down Sample.empty_db
           Sample.john_body eq_refl).
Defined.


Lemma Create_then_SavePerson_conflict_witness :
  Sample_SavePerson Sample.calm Sample.john_db Sample.john_body =
  (JSON StatusConflict
     (ErrorJSON (mkErrorResponse "Person with this external_id already exists")),
   Sample.john_db).
Proof.
  apply (Create_then_SavePerson_conflict
           Sample.uuid_Parse Sample.time_Parse Sample.is_email
           Sample.Error_text Sample.calm Sample.calm Sample.empty_db
           (FromSaveRequest Sample.john_req) Sample.john Sample.john_db
           Sample.john_body Sample.john_req);
    reflexivity.
Defined.


Lemma SavePerson_twice_conflict_witness :
  Sample_SavePerson Sample.calm
    (snd (Sample_SavePerson Sample.calm Sample.empty_db Sample.john_body))
    Sample.john_body =
  (JSON StatusConflict
     (ErrorJSON (mkErrorResponse "Person with this external_id already exists")),
   snd (Sample_SavePerson Sample.calm Sample.empty_db Sample.john_body)) /\
  count_external_id Sample.john_id
    (snd (Sample_SavePerson Sample.calm Sample.empty_db Sample.john_body))
  = 1%nat.
Proof.
  apply (SavePerson_twice_conflict
           Sample.uuid_Parse Sample.time_Parse Sample.is_email
           Sample.Error_text Sample.calm Sample.calm Sample.empty_db
           Sample.john_body Sample.john_req Sample.john_body Sample.john_req);
    reflexivity.
Defined.

Lemma reachable_append_only_witness :
  exists added,
    rows (snd (Sample_ServeHTTP Sample.calm Sample.john_db
                 (POST_save Sample.john_body)))
    = (rows Sample.john_db ++ added)%list /\
    next_id Sample.john_db <=
    next_id (snd (Sample_ServeHTTP Sample.calm Sample.john_db
                    (POST_save Sample.john_body))).
Proof.
  apply (reachable_append_only
           Sample.uuid_Parse Sample.time_Parse Sample.is_email
           Sample.Error_text Sample.john_db).
  apply reach_step, reach_start.
Defined.

Lemma reachable_ids_increasing_witness :
  ids_increasing
    (snd (Sample_ServeHTTP Sample.calm Sample.empty_db
            (POST_save Sample.john_body))) /\
  sequence_ahead
    (snd (Sample_ServeHTTP Sample.calm Sample.empty_db
            (POST_save Sample.john_body))).
Proof.
  apply (reachable_ids_increasing
           Sample.uuid_Parse Sample.time_Parse Sample.is_email
           Sample.Error_text Sample.empty_db).
  - constructor.
  - constructor.
  - apply reach_step, reach_start.
Defined.

Lemma serve_all_reads_only_witness :
  serve_all Sample.uuid_Parse Sample.time_Parse Sample.is_email
            Sample.Error_text Sample.john_db
            [(Sample.calm, GET_id "1"); (Sample.lookup_down, GET_health);
             (Sample.lookup_down, GET_id "invalid-id")]
  = Sample.john_db.
Proof.
  apply (serve_all_reads_only
           Sample.uuid_Parse Sample.time_Parse Sample.is_email
           Sample.Error_text Sample.john_db).
  reflexivity.
Defined.


Lemma SavePerson_zero_values_rejected_witness :
  status
    (fst (Sample_SavePerson Sample.calm Sample.empty_db
            (ObjectJSON
               (mkJSONObject
                  (Some (JString "550e8400-e29b-41d4-a716-446655440000"))
                  (Some (JString EmptyString))
                  (Some (JString "john.doe@example.com"))
                  (Some (JString "1990-01-01T12:00:00Z"))))))
    = StatusBadRequest /\
  snd (Sample_SavePerson Sample.calm Sample.empty_db
         (ObjectJSON
            (mkJSONObject
               (Some (JString "550e8400-e29b-41d4-a716-446655440000"))
               (Some (JString EmptyString))
               (Some (JString "john.doe@example.com"))
               (Some (JString "1990-01-01T12:00:00Z")))))
    = Sample.empty_db.
Proof.
  apply (SavePerson_zero_values_rejected
           Sample.uuid_Parse Sample.time_Parse Sample.is_email
           Sample.Error_text).
  right. right. right. right. left. reflexivity.
Defined.


Lemma reachable_no_nil_external_id_witness :
  no_nil_external_id
    (snd (Sample_ServeHTTP Sample.calm Sample.empty_db
            (POST_save Sample.john_body))).
Proof.
  apply (reachable_no_nil_external_id
           Sample.uuid_Parse Sample.time_Parse Sample.is_email
           Sample.Error_text Sample.empty_db).
  - constructor.
  - apply reach_step, reach_start.
Defined.

Lemma cleanTestData_keeps_table_sound_witness :
  let cleaned := mkDB [Sample.john] 3 in
  (forall p, In p (rows cleaned) -> In p (rows Sample.both_db)) /\
  (unique_external_ids Sample.both_db -> unique_external_ids cleaned) /\
  (unique_ids Sample.both_db -> unique_ids cleaned) /\
  (sequence_ahead Sample.both_db -> sequence_ahead cleaned) /\
  (ids_increasing Sample.both_db -> ids_increasing cleaned) /\
  (false = false ->
   forall p, In p (rows cleaned) -> Contains (Name p) "Test" = false).
Proof.
  exact (cleanTestData_keeps_table_sound
           false Sample.both_db (mkDB [Sample.john] 3) eq_refl).
Defined.

Lemma SavePerson_two_distinct_witness :
  let save := SavePerson Sample.uuid_Parse_two Sample.time_Parse
                         Sample.is_email Sample.Error_text in
  let db1 := snd (save Sample.calm Sample.empty_db Sample.john_body) in
  let db2 := snd (save Sample.calm db1 Sample.jane_body) in
  status (fst (save Sample.calm Sample.empty_db Sample.john_body))
    = StatusCreated /\
  status (fst (save Sample.calm db1 Sample.jane_body)) = StatusCreated /\
  map ID (rows db2) = [1; 2] /\
  map ExternalID (rows db2) = [Sample.john_id; Sample.jane_id].
Proof.
  apply (SavePerson_two_distinct
           Sample.uuid_Parse_two Sample.time_Parse Sample.is_email
           Sample.Error_text Sample.calm Sample.calm Sample.empty_db
           Sample.john_body Sample.john_req Sample.jane_body Sample.jane_req).
  - reflexivity.
  - reflexivity.
  - discriminate.
  - intros p [].
  - intros p [].
  - reflexivity.
  - reflexivity.
  - constructor.
Defined.
